(** * Smart warehouse IoT simulation: the network simulator and the controller

    A shallow embedding of [model.py]: messages, the network simulator that
    delays and drops them, the controller (hub) that authenticates and
    authorises them, and the devices that send them; and of the driver of
    [experiment.py], which sets up the devices, runs the traffic and
    summarises the records.

    Conventions of the embedding.
    - Python [float]s are rationals ([Q]); [0.0] is [0], [0.5] is [1#2].
    - Python [str] is [string]; [Optional[str]] is [option string];
      a [dict] is a [gmap], a [set] is a [gset].
    - The process-wide generator of the [random] module is a tape of draws
      with a cursor, held in the world; every call of [random.random()]
      reads the draw under the cursor and advances it.
    - The controller object lives in the world (it is shared by reference
      between the devices and the caller of [send]); methods run in a state
      and exception monad over the world.
    - The world also keeps, as ghost state, the history of the messages the
      controller was handed; the program never reads it. *)

From Stdlib Require Import QArith Lqa.
From stdpp Require Import base gmap strings list fin_maps pretty.

Open Scope string_scope.

(** ** Numbers *)

(** [x < y] on floats, as a boolean. *)
Definition Qltb (x y : Q) : bool := negb (Qle_bool y x).

(** A value returned by [random.random()]: a number in the half-open
    interval from 0 to 1. *)
Record Draw : Type := mkDraw {
  draw_val : Q;
  draw_ok : Qle_bool 0 draw_val && Qltb draw_val 1 = true
}.

(** ** Data structures *)

(** Values a [Dict[str, Any]] of this program holds. *)
Inductive Value : Type :=
| VNone
| VBool (b : bool)
| VNum (q : Q)
| VStr (s : string).

(** Exceptions the program can raise. *)
Inductive Exn : Type :=
| ValueError (msg : string)
| KeyError (key : string)
| TypeError (msg : string).

Module Message.
Record t : Type := mk {
  device_id : string;
  role : string;
  action : string;
  payload : gmap string Value;
  credentials : option string
}.
End Message.

Record MessageResult : Type := mkMessageResult {
  delivered : bool;
  latency_ms : Q;
  accepted : bool;
  authorised : bool;
  reason : string
}.

Module RegisteredDevice.
Record t : Type := mk {
  device_id : string;
  role : string;
  api_key : option string
}.
End RegisteredDevice.

(** The fields of a [Controller] object. *)
Record Controller : Type := mkController {
  mode : string;
  device_registry : gmap string RegisteredDevice.t;
  security_overhead_ms : Q;
  rbac_policies : gmap string (gset string)
}.

(** The fields of a [NetworkSimulator] object. *)
Record NetworkSimulator : Type := mkNetworkSimulator {
  latency_range_ms : Q * Q;
  loss_probability : Q
}.

(** ** The world: the shared controller and the global random generator *)

Record World : Type := mkWorld {
  hub : Controller;          (* the controller object *)
  tape : nat -> Draw;        (* the draws the generator will produce *)
  cursor : nat;              (* how many draws were consumed *)
  processed : list Message.t  (* ghost: the messages the controller was
                                handed, most recent first *)
}.

Inductive Outcome (A : Type) : Type :=
| Return (a : A)
| Raise (e : Exn).
Arguments Return {A} a.
Arguments Raise {A} e.

(** Computations: they read and update the world, and return or raise. *)
Definition M (A : Type) : Type := World -> Outcome A * World.

Definition ret {A} (a : A) : M A := fun w => (Return a, w).

Definition raise {A} (e : Exn) : M A := fun w => (Raise e, w).

Definition bind {A B} (m : M A) (k : A -> M B) : M B :=
  fun w =>
    match m w with
    | (Return a, w') => k a w'
    | (Raise e, w') => (Raise e, w')
    end.

Notation "'do' x <- m ; k" := (bind m (fun x => k))
  (at level 10, x pattern, m at level 100, k at level 200).

(** [self] inside a method of the controller. *)
Definition get_hub : M Controller := fun w => (Return (hub w), w).

Definition set_hub (c : Controller) : M unit :=
  fun w => (Return tt, mkWorld c (tape w) (cursor w) (processed w)).

(** Ghost bookkeeping: record that the controller was handed [message].
    No decision reads this history. *)
Definition note_processed (message : Message.t) : M unit :=
  fun w => (Return tt, mkWorld (hub w) (tape w) (cursor w) (message :: processed w)).

(** [random.random()]. *)
Definition random : M Q :=
  fun w => (Return (draw_val (tape w (cursor w))),
            mkWorld (hub w) (tape w) (S (cursor w)) (processed w)).

(** [random.uniform(a, b)], which is [a + (b - a) * random()]. *)
Definition uniform (a b : Q) : M Q :=
  do u <- random;
  ret (a + (b - a) * u)%Q.

(** Truthiness of an [Optional[str]]: [None] and the empty string are false. *)
Definition truthy (o : option string) : bool :=
  match o with
  | None => false
  | Some s => negb (String.eqb s "")
  end.

(** [d[key]] on a dict. *)
Definition getitem (d : gmap string Value) (key : string) : M Value :=
  match d !! key with
  | Some v => ret v
  | None => raise (KeyError key)
  end.

(** A float operand of [+]; Python raises [TypeError] on another type. *)
Definition as_float (v : Value) : M Q :=
  match v with
  | VNum q => ret q
  | _ => raise (TypeError "unsupported operand type(s) for +")
  end.

(** A field of [MessageResult] declared [bool]. Python stores any value in
    it; here a value of another type, which would make the result
    ill-formed, is reported as a [TypeError]. *)
Definition as_bool (v : Value) : M bool :=
  match v with
  | VBool b => ret b
  | _ => raise (TypeError "expected bool")
  end.

(** A field of [MessageResult] declared [str], with the same convention. *)
Definition as_str (v : Value) : M string :=
  match v with
  | VStr s => ret s
  | _ => raise (TypeError "expected str")
  end.

(** ** Controller / hub *)

Module Controller.

(** The RBAC policy a controller gets when none is supplied. *)
Definition default_rbac_policies : gmap string (gset string) :=
  {[ "sensor" := {[ "send_status" ]};
     "robot" := {[ "move"; "shutdown"; "send_status" ]};
     "viewer" := {[ "read_status" ]} ]}.

(** [Controller(mode, rbac_policies, security_overhead_ms)]: the new
    object, or the exception the constructor raises. The defaults of the
    Python signature ("weak", [None], 5.0) are written out by the caller. *)
Definition __init__ (mode : string)
    (rbac_policies : option (gmap string (gset string)))
    (security_overhead_ms : Q) : Outcome Controller :=
  if negb (bool_decide (mode ∈ ({[ "weak"; "secure" ]} : gset string))) then
    Raise (ValueError "mode must be 'weak' or 'secure'")
  else
    Return {|
      mode := mode;
      device_registry := ∅;
      security_overhead_ms := security_overhead_ms;
      (* [rbac_policies or {...}]: [None] and the empty dict are false *)
      rbac_policies :=
        match rbac_policies with
        | Some p => if bool_decide (p = ∅) then default_rbac_policies else p
        | None => default_rbac_policies
        end
    |}.

Definition register_device (device_id role : string) (api_key : option string)
    : M unit :=
  do self <- get_hub;
  set_hub {|
    mode := mode self;
    device_registry :=
      <[ device_id := RegisteredDevice.mk device_id role api_key ]>
        (device_registry self);
    security_overhead_ms := security_overhead_ms self;
    rbac_policies := rbac_policies self
  |}.

(** *** Internal helpers: they only read [self]. *)

Definition _authenticate_weak (self : Controller) (message : Message.t)
    : bool * string :=
  if bool_decide (Message.device_id message ∈ dom (device_registry self)) then
    (true, "auth_ok_weak")
  else (false, "unknown_device").

Definition _authenticate_secure (self : Controller) (message : Message.t)
    : bool * string :=
  match device_registry self !! Message.device_id message with
  | None => (false, "unknown_device")
  | Some registered =>
      if negb (truthy (RegisteredDevice.api_key registered))
         || negb (truthy (Message.credentials message)) then
        (false, "missing_api_key")
      else if negb (bool_decide (RegisteredDevice.api_key registered
                                 = Message.credentials message)) then
        (false, "invalid_api_key")
      else (true, "auth_ok_secure")
  end.

Definition _authorise (self : Controller) (role action : string)
    : bool * string :=
  let allowed_actions := default ∅ (rbac_policies self !! role) in
  if bool_decide (action ∈ allowed_actions) then (true, "authorised")
  else (false, "forbidden_action").

(** *** Public interface *)

Definition process_message (message : Message.t) : M (gmap string Value) :=
  do _ <- note_processed message;
  do self <- get_hub;
  let overhead_ms :=
    if String.eqb (mode self) "secure" then security_overhead_ms self else 0%Q in
  let '(authenticated, auth_reason) :=
    if String.eqb (mode self) "weak" then _authenticate_weak self message
    else _authenticate_secure self message in
  if negb authenticated then
    (* the inner block may return early; otherwise control falls through *)
    do early <-
      (if String.eqb (mode self) "weak" then
         do u <- random;
         let accept_anyway := Qltb u (1#2) in
         if accept_anyway then
           ret (Some ({[ "accepted" := VBool true;
                         "authorised" := VBool false;
                         "reason" := VStr ("accepted_without_auth:" ++ auth_reason);
                         "security_overhead_ms" := VNum overhead_ms ]}
                      : gmap string Value))
         else ret None
       else ret None);
    match early with
    | Some decision => ret decision
    | None =>
        ret {[ "accepted" := VBool false;
               "authorised" := VBool false;
               "reason" := VStr auth_reason;
               "security_overhead_ms" := VNum overhead_ms ]}
    end
  else if String.eqb (mode self) "secure" then
    let '(authorised, authz_reason) :=
      _authorise self (Message.role message) (Message.action message) in
    if negb authorised then
      ret {[ "accepted" := VBool false;
             "authorised" := VBool false;
             "reason" := VStr authz_reason;
             "security_overhead_ms" := VNum overhead_ms ]}
    else
      ret {[ "accepted" := VBool true;
             "authorised" := VBool true;
             "reason" := VStr "secure_accept";
             "security_overhead_ms" := VNum overhead_ms ]}
  else
    ret {[ "accepted" := VBool true;
           "authorised" := VBool true;
           "reason" := VStr "weak_accept_no_rbac";
           "security_overhead_ms" := VNum overhead_ms ]}.

End Controller.

(** ** Network simulator *)

Module NetworkSimulator.

(** [send(message, controller)]; [controller] is the hub of the world. *)
Definition send (self : NetworkSimulator) (message : Message.t)
    : M MessageResult :=
  do latency_ms <- uniform (fst (latency_range_ms self)) (snd (latency_range_ms self));
  do u <- random;
  if Qltb u (loss_probability self) then
    ret {| delivered := false;
           latency_ms := latency_ms;
           accepted := false;
           authorised := false;
           reason := "network_drop" |}
  else
    do decision <- Controller.process_message message;
    do overhead <- (do v <- getitem decision "security_overhead_ms"; as_float v);
    do accepted <- (do v <- getitem decision "accepted"; as_bool v);
    do authorised <- (do v <- getitem decision "authorised"; as_bool v);
    do reason <- (do v <- getitem decision "reason"; as_str v);
    ret {| delivered := true;
           latency_ms := (latency_ms + overhead)%Q;
           accepted := accepted;
           authorised := authorised;
           reason := reason |}.

End NetworkSimulator.

(** ** Devices *)

(** The fields of a [Device] object; its [controller] is the hub of the
    world. A [RogueDevice] is a [Device] whose role is the claimed one and
    whose key is the spoofed one. *)
Record Device : Type := mkDevice {
  device_id : string;
  role : string;
  api_key : option string;
  network : NetworkSimulator
}.

Module Device.

Definition send_action (self : Device) (action : string)
    (payload : option (gmap string Value)) : M MessageResult :=
  let payload :=
    match payload with
    | None => ∅
    | Some p => p
    end in
  let message :=
    Message.mk (device_id self) (role self) action payload (api_key self) in
  NetworkSimulator.send (network self) message.

End Device.

Module RogueDevice.

Definition __init__ (device_id claimed_role : string)
    (spoofed_credentials : option string) (network : NetworkSimulator)
    : Device :=
  mkDevice device_id claimed_role spoofed_credentials network.

Definition send_malicious_action (self : Device) (action : string)
    (payload : option (gmap string Value)) : M MessageResult :=
  Device.send_action self action payload.

End RogueDevice.

(** ** The experiment driver ([experiment.py]) *)

(** An exception of a pure computation, raised in the world as it is. *)
Definition lift {A} (o : Outcome A) : M A := fun w => (o, w).

(** [for x in l: body], where [body] updates the local variables [s]. *)
Fixpoint for_each {A St : Type} (l : list A) (body : A -> St -> M St) (s : St)
    : M St :=
  match l with
  | [] => ret s
  | x :: l' => do s' <- body x s; for_each l' body s'
  end.

(** [[x for x in l if keep(x)]], where the test may raise. *)
Fixpoint filter_by {A : Type} (keep : A -> M bool) (l : list A) : M (list A) :=
  match l with
  | [] => ret []
  | x :: l' =>
      do b <- keep x;
      do kept <- filter_by keep l';
      ret (if b then x :: kept else kept)
  end.

(** [range(n)]: empty when [n] is not positive. *)
Definition range (n : Z) : list nat := seq 0 (Z.to_nat n).

(** The configuration dict, with the options the driver reads; an absent
    key is [None], and [config.get(key, d)] is [default d]. *)
Module Config.
Record t : Type := mk {
  num_legit_devices : option Z;
  num_legit_messages_per_device : option Z;
  num_rogue_messages : option Z;
  latency_range_ms : option (Q * Q);
  loss_probability : option Q;
  security_overhead_ms : option Q;
  rogue_device_id : option string;
  rogue_role : option string;
  rogue_api_key : option string
}.
End Config.

(** The dict [run_experiment] returns. *)
Module Results.
Record t : Type := mk {
  mode : string;
  config : Config.t;
  records : list (gmap string Value)
}.
End Results.

(** The dict [summarise_results] returns. *)
Module Summary.
Record t : Type := mk {
  mode : string;
  total_messages : nat;
  total_legitimate : nat;
  total_rogue : nat;
  legitimate_accepted : nat;
  rogue_accepted : nat;
  rogue_unauthorised_accepted : nat;
  avg_latency_all_ms : Q;
  avg_latency_legitimate_ms : Q;
  avg_latency_rogue_ms : Q
}.
End Summary.

(** Truthiness of a value of a record. *)
Definition is_true (v : Value) : bool :=
  match v with
  | VNone => false
  | VBool b => b
  | VNum q => negb (Qeq_bool q 0)
  | VStr s => negb (String.eqb s "")
  end.

(** [v == s] for a string [s]. *)
Definition eq_str (v : Value) (s : string) : bool :=
  match v with
  | VStr s' => String.eqb s' s
  | _ => false
  end.

(** A summand of [sum]: a number, a [bool] counting as 0 or 1. *)
Definition as_number (v : Value) : M Q :=
  match v with
  | VNum q => ret q
  | VBool b => ret (if b then 1 else 0)%Q
  | _ => raise (TypeError "unsupported operand type(s) for +")
  end.

Module Experiment.

Definition role_cycle : list string := ["sensor"; "robot"; "viewer"].

(** [f"device_{i+1}"]. *)
Definition device_name (i : nat) : string := "device_" ++ pretty (i + 1)%nat.

(** The network, the legitimate devices and the rogue device; the
    controller it creates becomes the hub of the world. *)
Definition _create_devices_and_controller (mode : string) (config : Config.t)
    : M (NetworkSimulator * list Device * Device) :=
  let network :=
    mkNetworkSimulator
      (default (10, 100)%Q (Config.latency_range_ms config))
      (default (5#100)%Q (Config.loss_probability config)) in
  do controller <-
    lift (Controller.__init__ mode None
            (default 5%Q (Config.security_overhead_ms config)));
  do _ <- set_hub controller;
  let num_legit_devices := default 3%Z (Config.num_legit_devices config) in
  do legit_devices <-
    for_each (range num_legit_devices)
      (fun i legit_devices =>
         let device_id := device_name i in
         let role := default "" (role_cycle !! (i mod length role_cycle)%nat) in
         let api_key :=
           if String.eqb mode "secure" then Some ("key-" ++ device_id)
           else None in
         do _ <- Controller.register_device device_id role api_key;
         let device := mkDevice device_id role api_key network in
         ret (legit_devices ++ [device])%list)
      [];
  let rogue_id := default "rogue_1" (Config.rogue_device_id config) in
  let rogue_role := default "robot" (Config.rogue_role config) in
  let rogue_key :=
    if String.eqb mode "secure" then
      Some (default "invalid-key" (Config.rogue_api_key config))
    else None in
  let rogue_device := RogueDevice.__init__ rogue_id rogue_role rogue_key network in
  ret (network, legit_devices, rogue_device).

Definition _choose_legitimate_action (role : string) : string :=
  if String.eqb role "sensor" then "send_status"
  else if String.eqb role "viewer" then "read_status"
  else "move".

Definition _choose_malicious_action : string := "shutdown".

(** The record appended for one message. *)
Definition record_of (source : string) (device : Device) (action : string)
    (result : MessageResult) : gmap string Value :=
  {[ "source" := VStr source;
     "device_id" := VStr (device_id device);
     "role" := VStr (role device);
     "action" := VStr action;
     "delivered" := VBool (delivered result);
     "latency_ms" := VNum (latency_ms result);
     "accepted" := VBool (accepted result);
     "authorised" := VBool (authorised result);
     "reason" := VStr (reason result) ]}.

Definition run_experiment (mode : string) (config : Config.t) : M Results.t :=
  do created <- _create_devices_and_controller mode config;
  let '(network, legit_devices, rogue_device) := created in
  let num_legit_messages_per_device :=
    default 100%Z (Config.num_legit_messages_per_device config) in
  let num_rogue_messages := default 100%Z (Config.num_rogue_messages config) in
  let records : list (gmap string Value) := [] in
  (* legitimate traffic *)
  do records <-
    for_each legit_devices
      (fun device records =>
         for_each (range num_legit_messages_per_device)
           (fun _ records =>
              let action := _choose_legitimate_action (role device) in
              do result <- Device.send_action device action None;
              ret (records ++ [record_of "legitimate" device action result])%list)
           records)
      records;
  (* malicious / rogue traffic *)
  do records <-
    for_each (range num_rogue_messages)
      (fun _ records =>
         let action := _choose_malicious_action in
         do result <- RogueDevice.send_malicious_action rogue_device action None;
         ret (records ++ [record_of "rogue" rogue_device action result])%list)
      records;
  ret (Results.mk mode config records).

(** The inner function [_avg_latency] of [summarise_results]. *)
Definition _avg_latency (rs : list (gmap string Value)) : M Q :=
  do delivered <-
    filter_by (fun r => do v <- getitem r "delivered"; ret (is_true v)) rs;
  match delivered with
  | [] => ret 0%Q
  | _ :: _ =>
      do total <-
        for_each delivered
          (fun r total =>
             do v <- getitem r "latency_ms";
             do x <- as_number v;
             ret (total + x)%Q)
          0%Q;
      ret (total / inject_Z (Z.of_nat (length delivered)))%Q
  end.

Definition summarise_results (results : Results.t) : M Summary.t :=
  let records := Results.records results in
  let total_messages := length records in
  do legit_records <-
    filter_by (fun r => do v <- getitem r "source"; ret (eq_str v "legitimate"))
      records;
  do rogue_records <-
    filter_by (fun r => do v <- getitem r "source"; ret (eq_str v "rogue"))
      records;
  do rogue_accepted <-
    filter_by (fun r => do v <- getitem r "accepted"; ret (is_true v))
      rogue_records;
  do rogue_unauthorised_accepted <-
    filter_by
      (fun r =>
         do a <- getitem r "accepted";
         if is_true a then
           do b <- getitem r "authorised"; ret (negb (is_true b))
         else ret false)
      rogue_records;
  do legit_accepted <-
    filter_by (fun r => do v <- getitem r "accepted"; ret (is_true v))
      legit_records;
  do avg_all <- _avg_latency records;
  do avg_legit <- _avg_latency legit_records;
  do avg_rogue <- _avg_latency rogue_records;
  ret {| Summary.mode := Results.mode results;
         Summary.total_messages := total_messages;
         Summary.total_legitimate := length legit_records;
         Summary.total_rogue := length rogue_records;
         Summary.legitimate_accepted := length legit_accepted;
         Summary.rogue_accepted := length rogue_accepted;
         Summary.rogue_unauthorised_accepted := length rogue_unauthorised_accepted;
         Summary.avg_latency_all_ms := avg_all;
         Summary.avg_latency_legitimate_ms := avg_legit;
         Summary.avg_latency_rogue_ms := avg_rogue |}.

End Experiment.

(** ** Vocabulary of the statements *)

(** The decision dict with the four keys [process_message] returns. *)
Definition decision (accepted authorised : bool) (reason : string)
    (overhead_ms : Q) : gmap string Value :=
  {[ "accepted" := VBool accepted;
     "authorised" := VBool authorised;
     "reason" := VStr reason;
     "security_overhead_ms" := VNum overhead_ms ]}.

(** The world after the controller was handed [message]. *)
Definition handed (message : Message.t) (w : World) : World :=
  mkWorld (hub w) (tape w) (cursor w) (message :: processed w).

(** The world after [n] more draws were consumed. *)
Definition consumed (n : nat) (w : World) : World :=
  mkWorld (hub w) (tape w) (n + cursor w) (processed w).

(** The [i]-th draw the generator will produce from world [w] on. *)
Definition next_draw (w : World) (i : nat) : Q :=
  draw_val (tape w (i + cursor w)).

(** The overhead a controller adds to the latency of a delivered message. *)
Definition overhead_of (self : Controller) : Q :=
  if String.eqb (mode self) "secure" then security_overhead_ms self else 0%Q.

(** The base latency [send] draws in world [w]. *)
Definition base_latency (self : NetworkSimulator) (w : World) : Q :=
  (fst (latency_range_ms self)
   + (snd (latency_range_ms self) - fst (latency_range_ms self))
     * next_draw w 0)%Q.

(** Worlds reachable by sending messages through networks, one at a time. *)
Inductive sends : World -> World -> Prop :=
| sends_refl w : sends w w
| sends_step w net message w' :
    sends (snd (NetworkSimulator.send net message w)) w' ->
    sends w w'.

(** The reason tags a result can carry. *)
Definition reason_tags : list string :=
  [ "network_drop"; "unknown_device"; "missing_api_key"; "invalid_api_key";
    "accepted_without_auth:unknown_device"; "forbidden_action";
    "secure_accept"; "weak_accept_no_rbac" ].

(** Whether the controller makes its fallback draw for [message]: only in
    weak mode, for a device that is not registered. *)
Definition fallback_draw (self : Controller) (message : Message.t) : bool :=
  String.eqb (mode self) "weak"
  && negb (bool_decide (Message.device_id message ∈ dom (device_registry self))).

(** The role and the key the driver gives the [i]-th legitimate device
    (counting from 0), and the device it builds. *)
Definition legit_role (i : nat) : string :=
  default "" (Experiment.role_cycle !! (i mod length Experiment.role_cycle)%nat).

Definition legit_key (mode : string) (i : nat) : option string :=
  if String.eqb mode "secure" then Some ("key-" ++ Experiment.device_name i)
  else None.

Definition legit_device (mode : string) (network : NetworkSimulator) (i : nat)
    : Device :=
  mkDevice (Experiment.device_name i) (legit_role i) (legit_key mode i) network.

(** The network and the rogue device the driver builds from a
    configuration. *)
Definition config_network (config : Config.t) : NetworkSimulator :=
  mkNetworkSimulator
    (default (10, 100)%Q (Config.latency_range_ms config))
    (default (5#100)%Q (Config.loss_probability config)).

Definition config_rogue (mode : string) (config : Config.t) : Device :=
  mkDevice (default "rogue_1" (Config.rogue_device_id config))
    (default "robot" (Config.rogue_role config))
    (if String.eqb mode "secure"
     then Some (default "invalid-key" (Config.rogue_api_key config))
     else None)
    (config_network config).

(** The numbers of devices and messages of a configuration, as [range]
    counts them. *)
Definition config_devices (config : Config.t) : nat :=
  Z.to_nat (default 3%Z (Config.num_legit_devices config)).

Definition config_legit_messages (config : Config.t) : nat :=
  Z.to_nat (default 100%Z (Config.num_legit_messages_per_device config)).

Definition config_rogue_messages (config : Config.t) : nat :=
  Z.to_nat (default 100%Z (Config.num_rogue_messages config)).

(** The registry after the driver registered its first [n] devices, and
    the controller it has created by then. *)
Definition registry_of (mode : string) (n : nat)
    : gmap string RegisteredDevice.t :=
  foldl
    (fun reg i =>
       <[ Experiment.device_name i :=
            RegisteredDevice.mk (Experiment.device_name i) (legit_role i)
              (legit_key mode i) ]> reg)
    ∅ (seq 0 n).

Definition created_hub (mode : string) (config : Config.t) : Controller :=
  mkController mode (registry_of mode (config_devices config))
    (default 5%Q (Config.security_overhead_ms config))
    Controller.default_rbac_policies.

(** [result] is what [device] got back for [action] from a world whose
    controller is [h]. *)
Definition sent_by (h : Controller) (device : Device) (action : string)
    (result : MessageResult) : Prop :=
  exists (w0 w1 : World),
    hub w0 = h
    /\ Device.send_action device action None w0 = (Return result, w1).

(** [r] is the record of a message [device] sent for [action]. *)
Definition record_sent (h : Controller) (source : string) (device : Device)
    (action : string) (r : gmap string Value) : Prop :=
  exists (result : MessageResult),
    r = Experiment.record_of source device action result
    /\ sent_by h device action result.

(** The value a record holds under [key] ([None] when it has none), and
    what the summary reads off a record that has its nine keys. *)
Definition field (key : string) (r : gmap string Value) : Value :=
  default VNone (r !! key).

Definition source_is (source : string) (r : gmap string Value) : bool :=
  eq_str (field "source" r) source.

Definition flag (key : string) (r : gmap string Value) : bool :=
  is_true (field key r).

Definition latency_of (r : gmap string Value) : Q :=
  match field "latency_ms" r with
  | VNum q => q
  | _ => 0%Q
  end.

(** A record as [run_experiment] builds it. *)
Definition well_formed (r : gmap string Value) : Prop :=
  exists (source : string) (device : Device) (action : string)
         (result : MessageResult),
    r = Experiment.record_of source device action result.

(** The average [_avg_latency] computes over well-formed records. *)
Definition avg_of (rs : list (gmap string Value)) : Q :=
  match List.filter (flag "delivered") rs with
  | [] => 0%Q
  | d :: ds =>
      (fold_left (fun total r => total + latency_of r) (d :: ds) 0
       / inject_Z (Z.of_nat (length (d :: ds))))%Q
  end.

(** The summary [summarise_results] computes over well-formed records. *)
Definition summary_of (mode : string) (records : list (gmap string Value))
    : Summary.t :=
  let legit := List.filter (source_is "legitimate") records in
  let rogue := List.filter (source_is "rogue") records in
  {| Summary.mode := mode;
     Summary.total_messages := length records;
     Summary.total_legitimate := length legit;
     Summary.total_rogue := length rogue;
     Summary.legitimate_accepted := length (List.filter (flag "accepted") legit);
     Summary.rogue_accepted := length (List.filter (flag "accepted") rogue);
     Summary.rogue_unauthorised_accepted :=
       length (List.filter
                 (fun r => flag "accepted" r && negb (flag "authorised" r)) rogue);
     Summary.avg_latency_all_ms := avg_of records;
     Summary.avg_latency_legitimate_ms := avg_of legit;
     Summary.avg_latency_rogue_ms := avg_of rogue |}.

(** What the callers of the driver do: run an experiment and summarise
    its results. *)
Definition run_and_summarise (mode : string) (config : Config.t) : M Summary.t :=
  do results <- Experiment.run_experiment mode config;
  Experiment.summarise_results results.

(** ** The configurations of [tests.py] *)

(** Draws below and above the thresholds the program compares with. *)
Definition low_draw : Draw := mkDraw (1#10) eq_refl.
Definition high_draw : Draw := mkDraw (9#10) eq_refl.

(** [Controller(mode=mode)] for a recognised mode, with the default policy
    and overhead. *)
Definition test_controller (mode : string) : Controller :=
  mkController mode ∅ 5 Controller.default_rbac_policies.

(** The world after [controller.register_device("device_1", role="sensor",
    api_key="key-device_1")], with a generator that produces [d] for ever. *)
Definition test_world (mode : string) (d : Draw) : World :=
  snd (Controller.register_device "device_1" "sensor" (Some "key-device_1")
         (mkWorld (test_controller mode) (fun _ => d) 0 [])).

Definition test_network (loss_probability : Q) : NetworkSimulator :=
  mkNetworkSimulator (10, 100)%Q loss_probability.

(** The device of the tests, holding [key] as its API key. *)
Definition test_device (key : string) (loss_probability : Q) : Device :=
  mkDevice "device_1" "sensor" (Some key) (test_network loss_probability).

(** The message of [test_network_can_drop_messages]. *)
Definition test_message : Message.t :=
  Message.mk "any" "sensor" "send_status" ∅ None.

(** The configuration of [test_experiment_runs_and_has_basic_structure],
    and a world to run it from. *)
Definition test_config : Config.t :=
  Config.mk (Some 2%Z) (Some 10%Z) (Some 10%Z) (Some (10, 20)%Q) (Some 0%Q)
    (Some 5%Q) None None None.

Definition test_start (d : Draw) : World :=
  mkWorld (test_controller "weak") (fun _ => d) 0 [].

(** * Properties *)

(** ** Numbers *)

Lemma Qltb_lt x y : Qltb x y = true <-> (x < y)%Q.
Proof.
  unfold Qltb. rewrite negb_true_iff, <- not_true_iff_false, Qle_bool_iff.
  split; [apply Qnot_le_lt | apply Qlt_not_le].
Qed.

Lemma Qltb_ge x y : Qltb x y = false <-> (y <= x)%Q.
Proof.
  unfold Qltb. rewrite negb_false_iff. apply Qle_bool_iff.
Qed.

Lemma draw_range (d : Draw) : (0 <= draw_val d < 1)%Q.
Proof.
  destruct d as [q Hq]; simpl.
  apply andb_true_iff in Hq as [H0 H1].
  split; [by apply Qle_bool_iff | by apply Qltb_lt].
Qed.

Lemma next_draw_range w i : (0 <= next_draw w i < 1)%Q.
Proof. apply draw_range. Qed.

(** ** Outcomes *)

Lemma returned_inj {A : Type} (a b : A) (w w' : World) :
  (Return a, w) = (Return b, w') -> a = b /\ w = w'.
Proof. intros Heq. by inversion Heq. Qed.

(** ** Decision dicts *)

Lemma decision_lookup (a b : bool) (r : string) (o : Q) :
  decision a b r o !! "accepted" = Some (VBool a)
  /\ decision a b r o !! "authorised" = Some (VBool b)
  /\ decision a b r o !! "reason" = Some (VStr r)
  /\ decision a b r o !! "security_overhead_ms" = Some (VNum o).
Proof. by repeat split. Qed.

Lemma decision_inj (a b a' b' : bool) (r r' : string) (o o' : Q) :
  decision a b r o = decision a' b' r' o' ->
  a = a' /\ b = b' /\ r = r' /\ o = o'.
Proof.
  intros Heq.
  destruct (decision_lookup a b r o) as (Ha & Hb & Hr & Ho).
  rewrite Heq in Ha, Hb, Hr, Ho.
  destruct (decision_lookup a' b' r' o') as (Ha' & Hb' & Hr' & Ho').
  repeat split; congruence.
Qed.

(** ** The controller's decision, branch by branch *)

(** Closes a goal of [process_message_shape] once the four components of
    the decision and the number of draws are known. *)
Ltac shape_with a b r n :=
  exists a, b, r, n; split; [reflexivity | split; [done | lia]].

Section process_message.

Context (message : Message.t) (w : World).

Local Abbreviation self := (hub w).

(** In weak mode a known device is accepted without any further check. *)
Lemma process_weak_known :
  mode self = "weak" ->
  is_Some (device_registry self !! Message.device_id message) ->
  Controller.process_message message w
  = (Return (decision true true "weak_accept_no_rbac" 0), handed message w).
Proof.
  intros Hmode Hreg.
  unfold Controller.process_message, bind, note_processed, get_hub, ret; simpl.
  rewrite Hmode; simpl.
  unfold Controller._authenticate_weak.
  rewrite bool_decide_eq_true_2 by (by apply elem_of_dom).
  reflexivity.
Qed.

(** In weak mode an unknown device is accepted or rejected by one draw. *)
Lemma process_weak_unknown :
  mode self = "weak" ->
  device_registry self !! Message.device_id message = None ->
  Controller.process_message message w
  = (Return (if Qltb (next_draw w 0) (1#2)
             then decision true false "accepted_without_auth:unknown_device" 0
             else decision false false "unknown_device" 0),
     consumed 1 (handed message w)).
Proof.
  intros Hmode Hreg.
  unfold Controller.process_message, bind, note_processed, get_hub, ret, random; simpl.
  rewrite Hmode; simpl.
  unfold Controller._authenticate_weak.
  rewrite bool_decide_eq_false_2 by (by apply not_elem_of_dom).
  simpl. unfold next_draw; simpl.
  destruct (Qltb _ _); reflexivity.
Qed.

(** In secure mode a failed authentication is a rejection with the reason
    of the failure, and no draw is made. *)
Lemma process_secure_rejected auth_reason :
  mode self = "secure" ->
  Controller._authenticate_secure self message = (false, auth_reason) ->
  Controller.process_message message w
  = (Return (decision false false auth_reason (security_overhead_ms self)),
     handed message w).
Proof.
  intros Hmode Hauth.
  unfold Controller.process_message, bind, note_processed, get_hub, ret; simpl.
  rewrite Hmode; simpl. rewrite Hauth; simpl.
  reflexivity.
Qed.

(** In secure mode an authenticated message is decided by the RBAC policy
    of the role the message claims. *)
Lemma process_secure_authenticated auth_reason :
  mode self = "secure" ->
  Controller._authenticate_secure self message = (true, auth_reason) ->
  Controller.process_message message w
  = (Return
       (if bool_decide (Message.action message
                        ∈ default ∅ (rbac_policies self !! Message.role message))
        then decision true true "secure_accept" (security_overhead_ms self)
        else decision false false "forbidden_action" (security_overhead_ms self)),
     handed message w).
Proof.
  intros Hmode Hauth.
  unfold Controller.process_message, bind, note_processed, get_hub, ret; simpl.
  rewrite Hmode; simpl. rewrite Hauth; simpl.
  unfold Controller._authorise.
  destruct (bool_decide _); reflexivity.
Qed.

(** Whatever the mode, the call returns a decision with the four keys, it
    authorises only what it accepts, it adds the overhead of the mode, it
    draws at most once and it leaves the controller as it was. *)
Lemma process_message_shape :
  exists (a b : bool) (r : string) (n : nat),
    Controller.process_message message w
    = (Return (decision a b r (overhead_of self)), consumed n (handed message w))
    /\ (b = true -> a = true) /\ (n <= 1)%nat.
Proof.
  unfold Controller.process_message, bind, note_processed, get_hub, ret, random,
    overhead_of; simpl.
  destruct (String.eqb (mode self) "weak") eqn:Hweak.
  - apply String.eqb_eq in Hweak. rewrite Hweak; simpl.
    destruct (Controller._authenticate_weak self message) as [[|] auth_reason]; simpl.
    + shape_with true true "weak_accept_no_rbac" 0%nat.
    + destruct (Qltb _ _).
      * shape_with true false ("accepted_without_auth:" ++ auth_reason) 1%nat.
      * shape_with false false auth_reason 1%nat.
  - destruct (Controller._authenticate_secure self message) as [[|] auth_reason]; simpl.
    + destruct (String.eqb (mode self) "secure").
      * destruct (Controller._authorise self _ _) as [[|] authz_reason]; simpl.
        -- shape_with true true "secure_accept" 0%nat.
        -- shape_with false false authz_reason 0%nat.
      * shape_with true true "weak_accept_no_rbac" 0%nat.
    + shape_with false false auth_reason 0%nat.
Qed.

(** The history of the controller grows by the message it was handed. *)
Lemma process_message_noted :
  processed (snd (Controller.process_message message w))
  = message :: processed w.
Proof.
  destruct process_message_shape as (a & b & r & n & -> & _). reflexivity.
Qed.

End process_message.

(** The constructor builds the controllers of the tests. *)
Lemma test_controller_init (m : string) :
  m = "weak" \/ m = "secure" ->
  Controller.__init__ m None 5 = Return (test_controller m).
Proof. by intros [-> | ->]. Qed.

(** Registration stores the device under its id, last write wins, and
    leaves the other entries alone. *)
Lemma register_device_lookup (id role id' : string) (key : option string)
    (w : World) :
  device_registry (hub (snd (Controller.register_device id role key w))) !! id'
  = if decide (id = id') then Some (RegisteredDevice.mk id role key)
    else device_registry (hub w) !! id'.
Proof.
  unfold Controller.register_device, bind, get_hub, set_hub; simpl.
  apply lookup_insert.
Qed.

(** ** Secure authentication, case by case *)

Section authenticate_secure.

Context (self : Controller) (message : Message.t).

Lemma authenticate_secure_unknown :
  device_registry self !! Message.device_id message = None ->
  Controller._authenticate_secure self message = (false, "unknown_device").
Proof.
  intros Hreg. unfold Controller._authenticate_secure. by rewrite Hreg.
Qed.

Lemma authenticate_secure_missing registered :
  device_registry self !! Message.device_id message = Some registered ->
  truthy (RegisteredDevice.api_key registered) = false
  \/ truthy (Message.credentials message) = false ->
  Controller._authenticate_secure self message = (false, "missing_api_key").
Proof.
  intros Hreg Hempty. unfold Controller._authenticate_secure. rewrite Hreg.
  destruct Hempty as [-> | ->]; [done | by rewrite orb_true_r].
Qed.

Lemma authenticate_secure_invalid registered :
  device_registry self !! Message.device_id message = Some registered ->
  truthy (RegisteredDevice.api_key registered) = true ->
  truthy (Message.credentials message) = true ->
  RegisteredDevice.api_key registered <> Message.credentials message ->
  Controller._authenticate_secure self message = (false, "invalid_api_key").
Proof.
  intros Hreg Hkey Hcred Hne. unfold Controller._authenticate_secure.
  rewrite Hreg, Hkey, Hcred; simpl.
  by rewrite bool_decide_eq_false_2.
Qed.

Lemma authenticate_secure_ok registered :
  device_registry self !! Message.device_id message = Some registered ->
  truthy (RegisteredDevice.api_key registered) = true ->
  RegisteredDevice.api_key registered = Message.credentials message ->
  Controller._authenticate_secure self message = (true, "auth_ok_secure").
Proof.
  intros Hreg Hkey Heq. unfold Controller._authenticate_secure.
  rewrite Hreg, <- Heq, Hkey; simpl.
  by rewrite bool_decide_eq_true_2.
Qed.

(** A failure of secure authentication carries one of three reasons. *)
Lemma authenticate_secure_failure auth_reason :
  Controller._authenticate_secure self message = (false, auth_reason) ->
  auth_reason = "unknown_device" \/ auth_reason = "missing_api_key"
  \/ auth_reason = "invalid_api_key".
Proof.
  unfold Controller._authenticate_secure.
  destruct (device_registry self !! _) as [registered|]; [|naive_solver].
  destruct (_ || _); [naive_solver|].
  destruct (negb _); naive_solver.
Qed.

End authenticate_secure.

(** ** The network simulator, branch by branch *)

Section send.

Context (net : NetworkSimulator) (message : Message.t) (w : World).

(** A draw below the loss probability drops the message: two draws are
    consumed and nothing else of the world changes. *)
Lemma send_dropped :
  (next_draw w 1 < loss_probability net)%Q ->
  NetworkSimulator.send net message w
  = (Return {| delivered := false;
               latency_ms := base_latency net w;
               accepted := false;
               authorised := false;
               reason := "network_drop" |},
     consumed 2 w).
Proof.
  intros Hdrop. apply Qltb_lt in Hdrop.
  unfold NetworkSimulator.send, uniform, bind, random, ret; simpl.
  unfold next_draw in Hdrop; simpl in Hdrop. rewrite Hdrop.
  reflexivity.
Qed.

(** Otherwise the message is handed to the controller and the result is
    built from its decision. *)
Lemma send_forwarded a b r o w' :
  (loss_probability net <= next_draw w 1)%Q ->
  Controller.process_message message (consumed 2 w)
  = (Return (decision a b r o), w') ->
  NetworkSimulator.send net message w
  = (Return {| delivered := true;
               latency_ms := (base_latency net w + o)%Q;
               accepted := a;
               authorised := b;
               reason := r |},
     w').
Proof.
  intros Hkeep Hdec. apply Qltb_ge in Hkeep.
  unfold NetworkSimulator.send, uniform, bind, random, ret; simpl.
  unfold next_draw in Hkeep; simpl in Hkeep. rewrite Hkeep.
  unfold consumed in Hdec; simpl in Hdec. rewrite Hdec.
  reflexivity.
Qed.

(** Every call returns a result; a delivered one comes from a decision of
    the controller. *)
Lemma send_shape :
  exists (res : MessageResult) (n : nat),
    NetworkSimulator.send net message w
    = (Return res,
       if delivered res then consumed n (handed message (consumed 2 w))
       else consumed 2 w)
    /\ (n <= 1)%nat
    /\ (accepted res = true -> delivered res = true)
    /\ (authorised res = true -> accepted res = true)
    /\ (delivered res = true ->
        latency_ms res = (base_latency net w + overhead_of (hub w))%Q).
Proof.
  destruct (Qlt_le_dec (next_draw w 1) (loss_probability net)) as [Hdrop|Hkeep].
  - exists (mkMessageResult false (base_latency net w) false false "network_drop"),
      0%nat.
    rewrite send_dropped by done. simpl.
    split; [reflexivity|]. split; [lia|]. by repeat split.
  - destruct (process_message_shape message (consumed 2 w))
      as (a & b & r & n & Hdec & Hab & Hn).
    exists (mkMessageResult true (base_latency net w + overhead_of (hub w)) a b r), n.
    erewrite send_forwarded by done. simpl.
    split; [reflexivity|]. split; [lia|]. by repeat split.
Qed.

(** A delivered message was handed to the controller, exactly once. *)
Lemma send_delivered_noted (res : MessageResult) (w' : World) :
  NetworkSimulator.send net message w = (Return res, w') ->
  delivered res = true ->
  processed w' = message :: processed w.
Proof.
  destruct send_shape as (res0 & n & -> & _).
  intros [<- <-]%returned_inj Hdel. by rewrite Hdel.
Qed.

End send.

(** * The specification, property by property *)

(** C1. Every call of [NetworkSimulator.send] returns a result, whatever the
    message, the state of the controller and the draws; in that result
    [accepted] implies [delivered] and [authorised] implies [accepted]. *)
Theorem send_accepted_delivered_authorised_accepted
    (net : NetworkSimulator) (message : Message.t) (w : World) :
  exists (res : MessageResult) (w' : World),
    NetworkSimulator.send net message w = (Return res, w')
    /\ (accepted res = true -> delivered res = true)
    /\ (authorised res = true -> accepted res = true).
Proof.
  destruct (send_shape net message w) as (res & n & Hsend & _ & Hacc & Haut & _).
  by exists res, (if delivered res
                  then consumed n (handed message (consumed 2 w))
                  else consumed 2 w).
Qed.

(** C2. In weak mode [process_message] is decided by registry membership
    and the fallback draw: a registered device is accepted and authorised
    with reason "weak_accept_no_rbac" whatever its action, role and
    credentials; an unregistered one is accepted but not authorised, with
    reason "accepted_without_auth:unknown_device", when the fresh draw is
    below 0.5, and rejected with reason "unknown_device" otherwise. In
    secure mode no draw is made and [accepted] equals [authorised], so the
    override is never applied. *)
Theorem weak_mode_decision
    (w : World) (device_id role action : string)
    (payload : gmap string Value) (credentials : option string) :
  let message := Message.mk device_id role action payload credentials in
  (mode (hub w) = "weak" ->
   is_Some (device_registry (hub w) !! device_id) ->
   Controller.process_message message w
   = (Return (decision true true "weak_accept_no_rbac" 0), handed message w))
  /\ (mode (hub w) = "weak" ->
      device_registry (hub w) !! device_id = None ->
      (next_draw w 0 < 1#2)%Q ->
      Controller.process_message message w
      = (Return (decision true false "accepted_without_auth:unknown_device" 0),
         consumed 1 (handed message w)))
  /\ (mode (hub w) = "weak" ->
      device_registry (hub w) !! device_id = None ->
      (1#2 <= next_draw w 0)%Q ->
      Controller.process_message message w
      = (Return (decision false false "unknown_device" 0),
         consumed 1 (handed message w)))
  /\ (mode (hub w) = "secure" ->
      exists (a : bool) (r : string),
        Controller.process_message message w
        = (Return (decision a a r (security_overhead_ms (hub w))),
           handed message w)).
Proof.
  intros message. repeat split.
  - intros Hmode Hreg. by apply process_weak_known.
  - intros Hmode Hreg Hlow. rewrite process_weak_unknown by done.
    apply Qltb_lt in Hlow. by rewrite Hlow.
  - intros Hmode Hreg Hhigh. rewrite process_weak_unknown by done.
    apply Qltb_ge in Hhigh. by rewrite Hhigh.
  - intros Hmode.
    destruct (Controller._authenticate_secure (hub w) message)
      as [[|] auth_reason] eqn:Hauth.
    + rewrite (process_secure_authenticated message w auth_reason) by done.
      destruct (bool_decide _); by eexists _, _.
    + rewrite (process_secure_rejected message w auth_reason) by done.
      by eexists _, _.
Qed.

Lemma weak_mode_decision_witness :
  fst (Controller.process_message
         (Message.mk "device_1" "viewer" "shutdown" ∅ None)
         (test_world "weak" low_draw))
  = Return (decision true true "weak_accept_no_rbac" 0)
  /\ fst (Controller.process_message test_message (test_world "weak" low_draw))
     = Return (decision true false "accepted_without_auth:unknown_device" 0)
  /\ fst (Controller.process_message test_message (test_world "weak" high_draw))
     = Return (decision false false "unknown_device" 0)
  /\ exists (a : bool) (r : string),
       fst (Controller.process_message test_message (test_world "secure" low_draw))
       = Return (decision a a r 5).
Proof.
  split; [|split; [|split]].
  - destruct (weak_mode_decision (test_world "weak" low_draw)
                "device_1" "viewer" "shutdown" ∅ None) as (H & _).
    rewrite H; [reflexivity | reflexivity | by eexists].
  - destruct (weak_mode_decision (test_world "weak" low_draw)
                "any" "sensor" "send_status" ∅ None) as (_ & H & _).
    unfold test_message. rewrite H; reflexivity.
  - destruct (weak_mode_decision (test_world "weak" high_draw)
                "any" "sensor" "send_status" ∅ None) as (_ & _ & H & _).
    unfold test_message. rewrite H; [reflexivity | reflexivity | reflexivity | ].
    vm_compute. discriminate.
  - destruct (weak_mode_decision (test_world "secure" low_draw)
                "any" "sensor" "send_status" ∅ None) as (_ & _ & _ & H).
    destruct (H eq_refl) as (a & r & Hdec).
    exists a, r. unfold test_message. by rewrite Hdec.
Defined.

(** C3. With loss probability 0 and a controller in secure mode, a device
    registered with a non-empty API key that sends, through
    [Device.send_action], an action its role allows, with that key as its
    credentials, is delivered, accepted and authorised with reason
    "secure_accept". *)
Theorem secure_legitimate_device_accepted
    (dev : Device) (action : string) (payload : option (gmap string Value))
    (w : World) (registered : RegisteredDevice.t) (key : string)
    (allowed : gset string) :
  (loss_probability (network dev) == 0)%Q ->
  mode (hub w) = "secure" ->
  device_registry (hub w) !! device_id dev = Some registered ->
  RegisteredDevice.api_key registered = Some key ->
  key <> "" ->
  api_key dev = Some key ->
  rbac_policies (hub w) !! role dev = Some allowed ->
  action ∈ allowed ->
  exists (w' : World),
    Device.send_action dev action payload w
    = (Return {| delivered := true;
                 latency_ms :=
                   (base_latency (network dev) w + security_overhead_ms (hub w))%Q;
                 accepted := true;
                 authorised := true;
                 reason := "secure_accept" |},
       w').
Proof.
  intros Hloss Hmode Hreg Hkey Hne Hdev Hrole Hact.
  unfold Device.send_action.
  set (message := Message.mk _ _ _ _ _).
  exists (handed message (consumed 2 w)).
  apply send_forwarded.
  - rewrite Hloss. apply next_draw_range.
  - rewrite (process_secure_authenticated message (consumed 2 w) "auth_ok_secure").
    + simpl. rewrite Hrole; simpl. by rewrite bool_decide_eq_true_2.
    + done.
    + apply (authenticate_secure_ok _ _ registered); simpl.
      * done.
      * rewrite Hkey; simpl. apply negb_true_iff. by apply String.eqb_neq.
      * by rewrite Hkey, Hdev.
Qed.

Lemma secure_legitimate_device_accepted_witness :
  exists (w' : World),
    Device.send_action (test_device "key-device_1" 0) "send_status" None
      (test_world "secure" low_draw)
    = (Return {| delivered := true;
                 latency_ms := (10 + (100 - 10) * (1#10) + 5)%Q;
                 accepted := true;
                 authorised := true;
                 reason := "secure_accept" |},
       w').
Proof.
  apply (secure_legitimate_device_accepted
           (test_device "key-device_1" 0) "send_status" None
           (test_world "secure" low_draw)
           (RegisteredDevice.mk "device_1" "sensor" (Some "key-device_1"))
           "key-device_1" {[ "send_status" ]}).
  - reflexivity.
  - reflexivity.
  - reflexivity.
  - reflexivity.
  - discriminate.
  - reflexivity.
  - reflexivity.
  - by apply elem_of_singleton.
Defined.

(** C4. In secure mode authentication fails with "unknown_device" when the
    device id is not in the registry; otherwise with "missing_api_key" when
    the registered key is empty or the message carries no credentials
    ([None] or the empty string, both false in Python); otherwise with
    "invalid_api_key" when the credentials differ from the key. On every
    such failure [process_message] makes no draw and returns a decision
    that is neither accepted nor authorised and carries the reason of the
    failure. *)
Theorem secure_authentication_failure (message : Message.t) (w : World) :
  mode (hub w) = "secure" ->
  let failed (reason : string) :=
    Controller._authenticate_secure (hub w) message = (false, reason)
    /\ Controller.process_message message w
       = (Return (decision false false reason (security_overhead_ms (hub w))),
          handed message w) in
  (device_registry (hub w) !! Message.device_id message = None ->
   failed "unknown_device")
  /\ (forall registered : RegisteredDevice.t,
        device_registry (hub w) !! Message.device_id message = Some registered ->
        truthy (RegisteredDevice.api_key registered) = false
        \/ truthy (Message.credentials message) = false ->
        failed "missing_api_key")
  /\ (forall registered : RegisteredDevice.t,
        device_registry (hub w) !! Message.device_id message = Some registered ->
        truthy (RegisteredDevice.api_key registered) = true ->
        truthy (Message.credentials message) = true ->
        RegisteredDevice.api_key registered <> Message.credentials message ->
        failed "invalid_api_key")
  /\ (forall reason : string,
        Controller._authenticate_secure (hub w) message = (false, reason) ->
        failed reason).
Proof.
  intros Hmode failed.
  assert (forall reason,
    Controller._authenticate_secure (hub w) message = (false, reason) ->
    failed reason) as Hfailed.
  { intros reason Hauth. split; [done|]. by apply process_secure_rejected. }
  split; [|split; [|split]].
  - intros Hreg. by apply Hfailed, authenticate_secure_unknown.
  - intros registered Hreg Hempty.
    by apply Hfailed, (authenticate_secure_missing _ _ registered).
  - intros registered Hreg Hkey Hcred Hne.
    by apply Hfailed, (authenticate_secure_invalid _ _ registered).
  - done.
Qed.

Lemma secure_authentication_failure_witness :
  fst (Controller.process_message test_message (test_world "secure" low_draw))
  = Return (decision false false "unknown_device" 5)
  /\ fst (Controller.process_message
            (Message.mk "device_1" "sensor" "send_status" ∅ None)
            (test_world "secure" low_draw))
     = Return (decision false false "missing_api_key" 5)
  /\ fst (Controller.process_message
            (Message.mk "device_1" "sensor" "send_status" ∅ (Some "bad-key"))
            (test_world "secure" low_draw))
     = Return (decision false false "invalid_api_key" 5).
Proof.
  split; [|split].
  - destruct (secure_authentication_failure test_message
                (test_world "secure" low_draw) eq_refl) as (H & _).
    destruct (H eq_refl) as [_ ->]. reflexivity.
  - destruct (secure_authentication_failure
                (Message.mk "device_1" "sensor" "send_status" ∅ None)
                (test_world "secure" low_draw) eq_refl) as (_ & H & _).
    destruct (H (RegisteredDevice.mk "device_1" "sensor" (Some "key-device_1"))
                eq_refl (or_intror eq_refl)) as [_ ->].
    reflexivity.
  - destruct (secure_authentication_failure
                (Message.mk "device_1" "sensor" "send_status" ∅ (Some "bad-key"))
                (test_world "secure" low_draw) eq_refl) as (_ & _ & H & _).
    destruct (H (RegisteredDevice.mk "device_1" "sensor" (Some "key-device_1"))
                eq_refl eq_refl eq_refl) as [_ ->]; [discriminate|].
    reflexivity.
Defined.

(** C5. In secure mode, once authentication has succeeded, the decision
    depends only on the role and the action the message claims:
    [process_message] returns accepted, authorised, "secure_accept" if and
    only if the action is in the allowed set of the claimed role, and not
    accepted, not authorised, "forbidden_action" otherwise. The role the
    registry stores for the device plays no part: any other secure world
    with the same policy and overhead in which the message authenticates
    gives the same decision. *)
Theorem secure_authorisation_by_claimed_role
    (message : Message.t) (w : World) (auth_reason : string) :
  mode (hub w) = "secure" ->
  Controller._authenticate_secure (hub w) message = (true, auth_reason) ->
  let allowed := default ∅ (rbac_policies (hub w) !! Message.role message) in
  (Message.action message ∈ allowed
   <-> Controller.process_message message w
       = (Return (decision true true "secure_accept" (security_overhead_ms (hub w))),
          handed message w))
  /\ (Message.action message ∉ allowed
      <-> Controller.process_message message w
          = (Return (decision false false "forbidden_action"
                       (security_overhead_ms (hub w))),
             handed message w))
  /\ (forall (w2 : World) (auth_reason2 : string),
        mode (hub w2) = "secure" ->
        Controller._authenticate_secure (hub w2) message = (true, auth_reason2) ->
        rbac_policies (hub w2) = rbac_policies (hub w) ->
        security_overhead_ms (hub w2) = security_overhead_ms (hub w) ->
        fst (Controller.process_message message w2)
        = fst (Controller.process_message message w)).
Proof.
  intros Hmode Hauth allowed.
  pose proof (process_secure_authenticated message w auth_reason Hmode Hauth)
    as Hdec.
  fold allowed in Hdec.
  split; [|split].
  - rewrite Hdec. split.
    + intros Hin. by rewrite bool_decide_eq_true_2.
    + intros Heq. destruct (bool_decide_reflect (Message.action message ∈ allowed))
        as [Hin|Hout]; [done|].
      apply returned_inj in Heq as [Heq _].
      by apply decision_inj in Heq as (? & _).
  - rewrite Hdec. split.
    + intros Hout. by rewrite bool_decide_eq_false_2.
    + intros Heq. destruct (bool_decide_reflect (Message.action message ∈ allowed))
        as [Hin|Hout]; [|done].
      apply returned_inj in Heq as [Heq _].
      by apply decision_inj in Heq as (? & _).
  - intros w2 auth_reason2 Hmode2 Hauth2 Hrbac Hover.
    rewrite Hdec.
    rewrite (process_secure_authenticated message w2 auth_reason2) by done.
    by rewrite Hrbac, Hover.
Qed.

Lemma secure_authorisation_by_claimed_role_witness :
  fst (Controller.process_message
         (Message.mk "device_1" "robot" "shutdown" ∅ (Some "key-device_1"))
         (test_world "secure" low_draw))
  = Return (decision true true "secure_accept" 5)
  /\ fst (Controller.process_message
            (Message.mk "device_1" "sensor" "shutdown" ∅ (Some "key-device_1"))
            (test_world "secure" low_draw))
     = Return (decision false false "forbidden_action" 5).
Proof.
  split.
  - destruct (secure_authorisation_by_claimed_role
                (Message.mk "device_1" "robot" "shutdown" ∅ (Some "key-device_1"))
                (test_world "secure" low_draw) "auth_ok_secure" eq_refl eq_refl)
      as ([H _] & _).
    rewrite H; [reflexivity|]. vm_compute. set_solver.
  - destruct (secure_authorisation_by_claimed_role
                (Message.mk "device_1" "sensor" "shutdown" ∅ (Some "key-device_1"))
                (test_world "secure" low_draw) "auth_ok_secure" eq_refl eq_refl)
      as (_ & [H _] & _).
    rewrite H; [reflexivity|]. simpl. set_solver.
Defined.

(** C6. With loss probability 1, and more generally whenever the drop draw
    is below the loss probability, [NetworkSimulator.send] returns a result
    that is not delivered, not accepted and not authorised, with reason
    "network_drop" and the drawn base latency; the controller is not
    handed the message: its history and its state are as before, and only
    the two draws of [send] are consumed. *)
Theorem dropped_message_never_reaches_controller
    (net : NetworkSimulator) (message : Message.t) (w : World) :
  (loss_probability net == 1)%Q
  \/ (next_draw w 1 < loss_probability net)%Q ->
  NetworkSimulator.send net message w
  = (Return {| delivered := false;
               latency_ms := base_latency net w;
               accepted := false;
               authorised := false;
               reason := "network_drop" |},
     consumed 2 w)
  /\ fst (uniform (fst (latency_range_ms net)) (snd (latency_range_ms net)) w)
     = Return (base_latency net w)
  /\ processed (snd (NetworkSimulator.send net message w)) = processed w
  /\ hub (snd (NetworkSimulator.send net message w)) = hub w.
Proof.
  intros Hloss.
  assert (next_draw w 1 < loss_probability net)%Q as Hdrop.
  { destruct Hloss as [Hone|Hdrop]; [|done].
    rewrite Hone. apply next_draw_range. }
  rewrite send_dropped by done. by repeat split.
Qed.

Lemma dropped_message_never_reaches_controller_witness :
  NetworkSimulator.send (test_network 1) test_message (test_world "weak" low_draw)
  = (Return {| delivered := false;
               latency_ms := (10 + (100 - 10) * (1#10))%Q;
               accepted := false;
               authorised := false;
               reason := "network_drop" |},
     consumed 2 (test_world "weak" low_draw)).
Proof.
  apply (dropped_message_never_reaches_controller
           (test_network 1) test_message (test_world "weak" low_draw)).
  left. reflexivity.
Defined.

(** C7. When the latency range satisfies 0 <= min <= max and the security
    overhead is not negative, every call of [send] returns a result, and the
    latency of a delivered one lies between min and max + overhead; it is
    the base latency plus the overhead of the decision, which is the
    controller's [security_overhead_ms] in secure mode and 0 in weak mode,
    whatever branch the decision takes. *)
Theorem delivered_latency_within_bounds
    (net : NetworkSimulator) (message : Message.t) (w : World) :
  (0 <= fst (latency_range_ms net))%Q ->
  (fst (latency_range_ms net) <= snd (latency_range_ms net))%Q ->
  (0 <= security_overhead_ms (hub w))%Q ->
  (exists (res : MessageResult) (w' : World),
     NetworkSimulator.send net message w = (Return res, w')
     /\ (delivered res = true ->
         (fst (latency_range_ms net) <= latency_ms res)%Q
         /\ (latency_ms res
             <= snd (latency_range_ms net) + security_overhead_ms (hub w))%Q
         /\ (mode (hub w) = "secure" ->
             latency_ms res
             = (base_latency net w + security_overhead_ms (hub w))%Q)
         /\ (mode (hub w) = "weak" ->
             latency_ms res = (base_latency net w + 0)%Q)))
  /\ (exists (a b : bool) (r : string) (o : Q) (w' : World),
        Controller.process_message message w = (Return (decision a b r o), w')
        /\ (mode (hub w) = "secure" -> o = security_overhead_ms (hub w))
        /\ (mode (hub w) = "weak" -> o = 0%Q)).
Proof.
  intros Hmin Hrange Hover.
  assert ((mode (hub w) = "secure" ->
           overhead_of (hub w) = security_overhead_ms (hub w))
          /\ (mode (hub w) = "weak" -> overhead_of (hub w) = 0%Q)) as [Hsec Hweak].
  { unfold overhead_of. split; by intros ->. }
  assert (0 <= overhead_of (hub w) <= security_overhead_ms (hub w))%Q as [Ho0 Ho1].
  { unfold overhead_of. destruct (String.eqb _ _); split; lra. }
  split.
  - destruct (send_shape net message w) as (res & n & Hsend & _ & _ & _ & Hlat).
    eexists res, _. split; [exact Hsend|].
    intros Hdel. rewrite (Hlat Hdel).
    pose proof (next_draw_range w 0) as [Hu0 Hu1].
    unfold base_latency.
    repeat split.
    + nra.
    + nra.
    + by intros ->%Hsec.
    + by intros ->%Hweak.
  - destruct (process_message_shape message w) as (a & b & r & n & Hdec & _).
    by eexists a, b, r, _, _.
Qed.

Lemma delivered_latency_within_bounds_witness :
  exists (res : MessageResult) (w' : World),
    NetworkSimulator.send (test_network 0) test_message
      (test_world "secure" low_draw) = (Return res, w')
    /\ (delivered res = true ->
        (10 <= latency_ms res)%Q /\ (latency_ms res <= 100 + 5)%Q).
Proof.
  destruct (delivered_latency_within_bounds
              (test_network 0) test_message (test_world "secure" low_draw))
    as [(res & w' & Hsend & Hlat) _].
  - discriminate.
  - discriminate.
  - discriminate.
  - exists res, w'. split; [exact Hsend|].
    intros Hdel. destruct (Hlat Hdel) as (Hlo & Hhi & _). by split.
Defined.

(** C8. Constructing a controller with a mode other than "weak" and
    "secure" raises [ValueError], so no controller exists to process a
    message; with one of the two modes the constructor returns the
    controller. This is the only failure: [NetworkSimulator.send] and
    [Controller.process_message] return, and never raise, for every network,
    message and world, and the decision returned has the four keys with
    values of the expected types. *)
Theorem unrecognised_mode_is_the_only_failure :
  (forall (m : string) (rbac : option (gmap string (gset string))) (o : Q),
     m <> "weak" -> m <> "secure" ->
     Controller.__init__ m rbac o
     = Raise (ValueError "mode must be 'weak' or 'secure'"))
  /\ (forall (m : string) (rbac : option (gmap string (gset string))) (o : Q),
        m = "weak" \/ m = "secure" ->
        exists (c : Controller),
          Controller.__init__ m rbac o = Return c
          /\ mode c = m /\ security_overhead_ms c = o /\ device_registry c = ∅)
  /\ (forall (net : NetworkSimulator) (message : Message.t) (w : World),
        exists (res : MessageResult) (w' : World),
          NetworkSimulator.send net message w = (Return res, w'))
  /\ (forall (message : Message.t) (w : World),
        exists (a b : bool) (r : string) (o : Q) (w' : World),
          Controller.process_message message w
          = (Return (decision a b r o), w')).
Proof.
  split; [|split; [|split]].
  - intros m rbac o Hweak Hsecure. unfold Controller.__init__.
    rewrite bool_decide_eq_false_2; [done|].
    by intros [Hin%elem_of_singleton | Hin%elem_of_singleton]%elem_of_union.
  - intros m rbac o Hmode. unfold Controller.__init__.
    rewrite bool_decide_eq_true_2; [simpl; by eexists|].
    destruct Hmode as [-> | ->]; [apply elem_of_union_l | apply elem_of_union_r];
      by apply elem_of_singleton.
  - intros net message w.
    destruct (send_shape net message w) as (res & n & Hsend & _).
    by eexists res, _.
  - intros message w.
    destruct (process_message_shape message w) as (a & b & r & n & Hdec & _).
    by eexists a, b, r, _, _.
Qed.

Lemma unrecognised_mode_is_the_only_failure_witness :
  Controller.__init__ "strict" None 5
  = Raise (ValueError "mode must be 'weak' or 'secure'")
  /\ (exists (c : Controller), Controller.__init__ "secure" None 5 = Return c)
  /\ exists (res : MessageResult) (w' : World),
       NetworkSimulator.send (test_network 0) test_message
         (test_world "weak" high_draw) = (Return res, w').
Proof.
  destruct unrecognised_mode_is_the_only_failure as (Hbad & Hgood & Hsend & _).
  split; [|split].
  - apply Hbad; discriminate.
  - destruct (Hgood "secure" None 5%Q (or_intror eq_refl)) as (c & Hc & _).
    by exists c.
  - apply Hsend.
Defined.

(** C9. [Controller.process_message] leaves the controller as it was: its
    mode, its registry with every entry and API key, its RBAC policies and
    its overhead. So does [NetworkSimulator.send], and so does any number of
    sends: a registered device keeps its API key during a run. *)
Theorem process_message_preserves_controller (message : Message.t) (w : World) :
  hub (snd (Controller.process_message message w)) = hub w
  /\ (forall (net : NetworkSimulator),
        hub (snd (NetworkSimulator.send net message w)) = hub w)
  /\ (forall (w' : World),
        sends w w' ->
        hub w' = hub w
        /\ forall (device_id : string),
             RegisteredDevice.api_key <$> device_registry (hub w') !! device_id
             = RegisteredDevice.api_key <$> device_registry (hub w) !! device_id).
Proof.
  assert (forall (net : NetworkSimulator) (m : Message.t) (v : World),
            hub (snd (NetworkSimulator.send net m v)) = hub v) as Hsend.
  { intros net m v.
    destruct (send_shape net m v) as (res & n & -> & _).
    simpl. by destruct (delivered res). }
  split; [|split].
  - destruct (process_message_shape message w) as (a & b & r & n & -> & _).
    reflexivity.
  - intros net. apply Hsend.
  - intros w' Hrun.
    assert (hub w' = hub w) as Hhub.
    { induction Hrun as [v | v net m v' _ IH]; [done|].
      by rewrite IH, Hsend. }
    by rewrite Hhub.
Qed.

Lemma process_message_preserves_controller_witness :
  RegisteredDevice.api_key
  <$> device_registry
        (hub (snd (NetworkSimulator.send (test_network 0) test_message
                     (test_world "secure" low_draw)))) !! "device_1"
  = Some (Some "key-device_1").
Proof.
  destruct (process_message_preserves_controller test_message
              (test_world "secure" low_draw)) as (_ & _ & Hrun).
  destruct (Hrun (snd (NetworkSimulator.send (test_network 0) test_message
                         (test_world "secure" low_draw)))) as [_ Hkey].
  - eapply sends_step, sends_refl.
  - by rewrite Hkey.
Defined.

(** C10. In secure mode a message that authenticates but claims a role with
    no entry in the RBAC policies is rejected: [_authorise] finds the empty
    set of actions for the role and returns "forbidden_action" without
    raising, and [process_message] returns not accepted, not authorised,
    "forbidden_action". *)
Theorem secure_role_without_policy_forbidden
    (message : Message.t) (w : World) (auth_reason : string) :
  mode (hub w) = "secure" ->
  Controller._authenticate_secure (hub w) message = (true, auth_reason) ->
  rbac_policies (hub w) !! Message.role message = None ->
  Controller._authorise (hub w) (Message.role message) (Message.action message)
  = (false, "forbidden_action")
  /\ Controller.process_message message w
     = (Return (decision false false "forbidden_action"
                  (security_overhead_ms (hub w))),
        handed message w).
Proof.
  intros Hmode Hauth Hrole. split.
  - unfold Controller._authorise. rewrite Hrole; simpl.
    by rewrite bool_decide_eq_false_2 by set_solver.
  - rewrite (process_secure_authenticated message w auth_reason) by done.
    rewrite Hrole; simpl.
    by rewrite bool_decide_eq_false_2 by set_solver.
Qed.

Lemma secure_role_without_policy_forbidden_witness :
  fst (Controller.process_message
         (Message.mk "device_1" "admin" "send_status" ∅ (Some "key-device_1"))
         (test_world "secure" low_draw))
  = Return (decision false false "forbidden_action" 5).
Proof.
  destruct (secure_role_without_policy_forbidden
              (Message.mk "device_1" "admin" "send_status" ∅ (Some "key-device_1"))
              (test_world "secure" low_draw) "auth_ok_secure")
    as [_ ->]; reflexivity.
Defined.

(** * Further properties of the model *)

(** ** Reasons and draws of a decision *)

(** A refinement of [process_message_shape]: the reason is one of the tags
    of a delivered message, and a draw is made exactly for the fallback. *)
Lemma process_message_cases (message : Message.t) (w : World) :
  exists (a b : bool) (r : string),
    Controller.process_message message w
    = (Return (decision a b r (overhead_of (hub w))),
       consumed (if fallback_draw (hub w) message then 1 else 0)
         (handed message w))
    /\ r ∈ reason_tags /\ r <> "network_drop".
Proof.
  unfold Controller.process_message, bind, note_processed, get_hub, ret, random,
    overhead_of, fallback_draw; simpl.
  destruct (String.eqb (mode (hub w)) "weak") eqn:Hweak; simpl.
  - apply String.eqb_eq in Hweak. rewrite Hweak; simpl.
    unfold Controller._authenticate_weak.
    destruct (bool_decide _); simpl.
    + exists true, true, "weak_accept_no_rbac".
      split; [reflexivity|]. split; [|done]. by apply (bool_decide_unpack _).
    + destruct (Qltb _ _).
      * exists true, false, "accepted_without_auth:unknown_device".
        split; [reflexivity|]. split; [|done]. by apply (bool_decide_unpack _).
      * exists false, false, "unknown_device".
        split; [reflexivity|]. split; [|done]. by apply (bool_decide_unpack _).
  - destruct (Controller._authenticate_secure (hub w) message)
      as [[|] auth_reason] eqn:Hauth; simpl.
    + destruct (String.eqb (mode (hub w)) "secure").
      * unfold Controller._authorise. destruct (bool_decide _); simpl.
        -- exists true, true, "secure_accept".
           split; [reflexivity|]. split; [|done]. by apply (bool_decide_unpack _).
        -- exists false, false, "forbidden_action".
           split; [reflexivity|]. split; [|done]. by apply (bool_decide_unpack _).
      * exists true, true, "weak_accept_no_rbac".
        split; [reflexivity|]. split; [|done]. by apply (bool_decide_unpack _).
    + exists false, false, auth_reason. split; [reflexivity|].
      destruct (authenticate_secure_failure _ _ _ Hauth) as [-> | [-> | ->]];
        (split; [by apply (bool_decide_unpack _) | done]).
Qed.

(** X1. Whatever the mode, the registry and the draws, the reason of the
    result of [send] is one of eight tags; the tags of the intermediate
    steps ("auth_ok_weak", "auth_ok_secure", "authorised") never reach the
    caller, and the reason is "network_drop" exactly when the message was
    not delivered. *)
Theorem send_reason_vocabulary
    (net : NetworkSimulator) (message : Message.t) (w : World) :
  exists (res : MessageResult) (w' : World),
    NetworkSimulator.send net message w = (Return res, w')
    /\ reason res ∈ reason_tags
    /\ (reason res = "network_drop" <-> delivered res = false).
Proof.
  destruct (Qlt_le_dec (next_draw w 1) (loss_probability net)) as [Hdrop|Hkeep].
  - rewrite send_dropped by done. eexists _, _. split; [reflexivity|]. simpl.
    split; [by apply (bool_decide_unpack _) | done].
  - destruct (process_message_cases message (consumed 2 w))
      as (a & b & r & Hdec & Hr & Hne).
    erewrite send_forwarded by done. eexists _, _. split; [reflexivity|]. simpl.
    split; [done|]. split; [done | discriminate].
Qed.

(** X2. [send] consumes two draws of the generator, and a third one exactly
    when the message is delivered to a controller in weak mode from a device
    that is not registered: in secure mode every message costs two draws. *)
Theorem send_draw_count
    (net : NetworkSimulator) (message : Message.t) (w : World) :
  exists (res : MessageResult) (w' : World),
    NetworkSimulator.send net message w = (Return res, w')
    /\ cursor w'
       = ((if delivered res && fallback_draw (hub w) message then 3 else 2)
          + cursor w)%nat
    /\ tape w' = tape w.
Proof.
  destruct (Qlt_le_dec (next_draw w 1) (loss_probability net)) as [Hdrop|Hkeep].
  - rewrite send_dropped by done. eexists _, _. split; [reflexivity|]. by simpl.
  - destruct (process_message_cases message (consumed 2 w))
      as (a & b & r & Hdec & _).
    erewrite send_forwarded by done. eexists _, _. split; [reflexivity|]. simpl.
    by destruct (fallback_draw _ _).
Qed.

(** X3. The loss probability is not validated: a message is delivered
    exactly when the second draw is not below it, so a probability of 0 or
    less delivers every message and a probability of 1 or more drops every
    message. *)
Theorem send_delivery_by_loss_probability
    (net : NetworkSimulator) (message : Message.t) (w : World) :
  exists (res : MessageResult) (w' : World),
    NetworkSimulator.send net message w = (Return res, w')
    /\ (delivered res = true <-> (loss_probability net <= next_draw w 1)%Q)
    /\ ((loss_probability net <= 0)%Q -> delivered res = true)
    /\ ((1 <= loss_probability net)%Q -> delivered res = false).
Proof.
  pose proof (next_draw_range w 1) as [Hu0 Hu1].
  destruct (Qlt_le_dec (next_draw w 1) (loss_probability net)) as [Hdrop|Hkeep].
  - rewrite send_dropped by done. eexists _, _. split; [reflexivity|]. simpl.
    split; [|split].
    + split; [done|]. intros Hle. lra.
    + intros Hle. lra.
    + done.
  - destruct (process_message_shape message (consumed 2 w))
      as (a & b & r & n & Hdec & _).
    erewrite send_forwarded by done. eexists _, _. split; [reflexivity|]. simpl.
    split; [done|]. split; [done|]. intros Hle. lra.
Qed.


(** ** Registration *)

(** X5. After [register_device(id, role, key)] with a non-empty key, secure
    authentication of a message from [id] succeeds exactly when it carries
    that key, whatever was registered under [id] before (the last write
    wins): other credentials give "invalid_api_key", absent or empty ones
    "missing_api_key". *)
Theorem register_device_then_authenticate
    (id role key : string) (message : Message.t) (w : World) :
  key <> "" ->
  Message.device_id message = id ->
  Controller._authenticate_secure
    (hub (snd (Controller.register_device id role (Some key) w))) message
  = if bool_decide (Message.credentials message = Some key)
    then (true, "auth_ok_secure")
    else if truthy (Message.credentials message)
         then (false, "invalid_api_key")
         else (false, "missing_api_key").
Proof.
  intros Hkey Hid.
  assert (truthy (Some key) = true) as Htruthy.
  { simpl. apply negb_true_iff. by apply String.eqb_neq. }
  pose proof (register_device_lookup id role (Message.device_id message)
                (Some key) w) as Hreg.
  rewrite decide_True in Hreg by done.
  destruct (bool_decide_reflect (Message.credentials message = Some key))
    as [Hcred|Hcred].
  - apply (authenticate_secure_ok _ _ _ Hreg); simpl; [done | by rewrite Hcred].
  - destruct (truthy (Message.credentials message)) eqn:Hnonempty.
    + apply (authenticate_secure_invalid _ _ _ Hreg); simpl; [done | done |].
      by intros Heq.
    + apply (authenticate_secure_missing _ _ _ Hreg). by right.
Qed.

Lemma register_device_then_authenticate_witness :
  Controller._authenticate_secure
    (hub (snd (Controller.register_device "device_1" "robot" (Some "new-key")
                 (test_world "secure" low_draw))))
    (Message.mk "device_1" "sensor" "send_status" ∅ (Some "key-device_1"))
  = (false, "invalid_api_key").
Proof.
  rewrite (register_device_then_authenticate "device_1" "robot" "new-key");
    [reflexivity | discriminate | reflexivity].
Defined.

(** X6. Registering a device changes nothing else: the mode, the policies,
    the overhead, the generator and the history are as before, the entries
    of the other devices are untouched, and a message from another device is
    decided as before. *)
Theorem register_device_frame
    (id role : string) (key : option string) (message : Message.t) (w : World) :
  Message.device_id message <> id ->
  let w' := snd (Controller.register_device id role key w) in
  fst (Controller.register_device id role key w) = Return tt
  /\ mode (hub w') = mode (hub w)
  /\ rbac_policies (hub w') = rbac_policies (hub w)
  /\ security_overhead_ms (hub w') = security_overhead_ms (hub w)
  /\ tape w' = tape w /\ cursor w' = cursor w /\ processed w' = processed w
  /\ device_registry (hub w') !! Message.device_id message
     = device_registry (hub w) !! Message.device_id message
  /\ fst (Controller.process_message message w')
     = fst (Controller.process_message message w).
Proof.
  intros Hne w'.
  assert (device_registry (hub w') !! Message.device_id message
          = device_registry (hub w) !! Message.device_id message) as Hreg.
  { unfold w'. rewrite register_device_lookup. by rewrite decide_False. }
  repeat split; try done.
  unfold Controller.process_message, bind, note_processed, get_hub, ret, random.
  unfold Controller._authenticate_weak, Controller._authenticate_secure,
    Controller._authorise.
  simpl.
  replace (bool_decide (Message.device_id message
                        ∈ dom (<[id:=RegisteredDevice.mk id role key]>
                                 (device_registry (hub w)))))
    with (bool_decide (Message.device_id message ∈ dom (device_registry (hub w)))).
  2:{ apply bool_decide_ext.
      rewrite dom_insert_L, elem_of_union, elem_of_singleton.
      split; [by right|]. by intros [Heq|Hin]. }
  rewrite lookup_insert_ne by done.
  repeat (match goal with
          | |- context [if ?c then _ else _] => destruct c
          | |- context [match ?c with Some _ => _ | None => _ end] => destruct c
          end; simpl; try reflexivity).
Qed.

Lemma register_device_frame_witness :
  fst (Controller.process_message
         (Message.mk "device_1" "sensor" "send_status" ∅ (Some "key-device_1"))
         (snd (Controller.register_device "device_2" "robot" (Some "key-device_2")
                 (test_world "secure" low_draw))))
  = Return (decision true true "secure_accept" 5).
Proof.
  destruct (register_device_frame "device_2" "robot" (Some "key-device_2")
              (Message.mk "device_1" "sensor" "send_status" ∅ (Some "key-device_1"))
              (test_world "secure" low_draw))
    as (_ & _ & _ & _ & _ & _ & _ & _ & ->); [discriminate | reflexivity].
Defined.

(** ** What the secure controller accepts *)

(** A successful secure authentication means a registered, non-empty key
    that the message carries. *)
Lemma authenticate_secure_success (self : Controller) (message : Message.t)
    (auth_reason : string) :
  Controller._authenticate_secure self message = (true, auth_reason) ->
  exists (registered : RegisteredDevice.t) (key : string),
    device_registry self !! Message.device_id message = Some registered
    /\ RegisteredDevice.api_key registered = Some key
    /\ key <> ""
    /\ Message.credentials message = Some key.
Proof.
  unfold Controller._authenticate_secure.
  destruct (device_registry self !! _) as [registered|]; [|done].
  destruct (truthy (RegisteredDevice.api_key registered)) eqn:Hkey; [|done].
  destruct (truthy (Message.credentials message)) eqn:Hcred; [|done].
  simpl.
  destruct (bool_decide_reflect (RegisteredDevice.api_key registered
                                 = Message.credentials message)) as [Heq|Hne];
    [|done].
  intros _.
  destruct (RegisteredDevice.api_key registered) as [key|] eqn:Hstored; [|done].
  exists registered, key.
  split; [done|]. split; [done|]. split; [|done].
  simpl in Hkey. apply negb_true_iff in Hkey. by apply String.eqb_neq.
Qed.

(** X7. In secure mode a message is accepted if and only if its device is
    registered with a non-empty API key, the message carries exactly that
    key, and the action is in the policy of the role the message claims. *)
Theorem secure_accepted_iff_authenticated_and_allowed
    (message : Message.t) (w : World) :
  mode (hub w) = "secure" ->
  (exists (b : bool) (r : string) (o : Q) (w' : World),
     Controller.process_message message w = (Return (decision true b r o), w'))
  <-> (exists (registered : RegisteredDevice.t) (key : string),
         device_registry (hub w) !! Message.device_id message = Some registered
         /\ RegisteredDevice.api_key registered = Some key
         /\ key <> ""
         /\ Message.credentials message = Some key
         /\ Message.action message
            ∈ default ∅ (rbac_policies (hub w) !! Message.role message)).
Proof.
  intros Hmode. split.
  - intros (b & r & o & w' & Hdec).
    destruct (Controller._authenticate_secure (hub w) message)
      as [[|] auth_reason] eqn:Hauth.
    + destruct (authenticate_secure_success _ _ _ Hauth)
        as (registered & key & Hreg & Hkey & Hne & Hcred).
      exists registered, key. repeat split; try done.
      rewrite (process_secure_authenticated message w auth_reason) in Hdec by done.
      destruct (bool_decide_reflect
                  (Message.action message
                   ∈ default ∅ (rbac_policies (hub w) !! Message.role message)))
        as [Hin|Hout]; [done|].
      apply returned_inj in Hdec as [Hdec _].
      by apply decision_inj in Hdec as (? & _).
    + rewrite (process_secure_rejected message w auth_reason) in Hdec by done.
      apply returned_inj in Hdec as [Hdec _].
      by apply decision_inj in Hdec as (? & _).
  - intros (registered & key & Hreg & Hkey & Hne & Hcred & Hin).
    rewrite (process_secure_authenticated message w "auth_ok_secure"); [|done|].
    + rewrite bool_decide_eq_true_2 by done. by eexists _, _, _, _.
    + apply (authenticate_secure_ok _ _ registered); [done | | by rewrite Hkey].
      rewrite Hkey; simpl. apply negb_true_iff. by apply String.eqb_neq.
Qed.

Lemma secure_accepted_iff_authenticated_and_allowed_witness :
  ~ exists (b : bool) (r : string) (o : Q) (w' : World),
      Controller.process_message
        (Message.mk "rogue_1" "robot" "shutdown" ∅ (Some "invalid-key"))
        (test_world "secure" low_draw)
      = (Return (decision true b r o), w').
Proof.
  intros Hacc.
  apply (secure_accepted_iff_authenticated_and_allowed
           (Message.mk "rogue_1" "robot" "shutdown" ∅ (Some "invalid-key"))
           (test_world "secure" low_draw) eq_refl) in Hacc
    as (registered & key & Hreg & _).
  vm_compute in Hreg. discriminate.
Defined.

(** ** What the controller never reads *)

(** The decision and the draws do not depend on the payload. *)
Lemma process_message_payload (id role action : string)
    (p1 p2 : gmap string Value) (cred : option string) (w : World) :
  fst (Controller.process_message (Message.mk id role action p1 cred) w)
  = fst (Controller.process_message (Message.mk id role action p2 cred) w).
Proof.
  unfold Controller.process_message, bind, note_processed, get_hub, ret, random.
  unfold Controller._authenticate_weak, Controller._authenticate_secure,
    Controller._authorise.
  simpl.
  repeat (match goal with
          | |- context [if ?c then _ else _] => destruct c
          | |- context [match ?c with Some _ => _ | None => _ end] => destruct c
          end; simpl; try reflexivity).
Qed.

(** X8. The payload of a message is never inspected: two calls of
    [Device.send_action] that differ only in the payload return the same
    result, leave the same controller and consume the same draws; a missing
    payload is the empty dict. *)
Theorem send_action_ignores_payload
    (dev : Device) (action : string) (p1 p2 : option (gmap string Value))
    (w : World) :
  fst (Device.send_action dev action p1 w) = fst (Device.send_action dev action p2 w)
  /\ hub (snd (Device.send_action dev action p1 w))
     = hub (snd (Device.send_action dev action p2 w))
  /\ cursor (snd (Device.send_action dev action p1 w))
     = cursor (snd (Device.send_action dev action p2 w))
  /\ Device.send_action dev action None w = Device.send_action dev action (Some ∅) w.
Proof.
  assert (forall (q1 q2 : gmap string Value),
    let m1 := Message.mk (device_id dev) (role dev) action q1 (api_key dev) in
    let m2 := Message.mk (device_id dev) (role dev) action q2 (api_key dev) in
    fst (NetworkSimulator.send (network dev) m1 w)
    = fst (NetworkSimulator.send (network dev) m2 w)
    /\ hub (snd (NetworkSimulator.send (network dev) m1 w))
       = hub (snd (NetworkSimulator.send (network dev) m2 w))
    /\ cursor (snd (NetworkSimulator.send (network dev) m1 w))
       = cursor (snd (NetworkSimulator.send (network dev) m2 w))) as Hsend.
  { intros q1 q2 m1 m2.
    destruct (Qlt_le_dec (next_draw w 1) (loss_probability (network dev)))
      as [Hdrop|Hkeep].
    - by rewrite !send_dropped by done.
    - destruct (process_message_cases m1 (consumed 2 w))
        as (a1 & b1 & r1 & Hdec1 & _).
      destruct (process_message_cases m2 (consumed 2 w))
        as (a2 & b2 & r2 & Hdec2 & _).
      pose proof (process_message_payload (device_id dev) (role dev) action
                    q1 q2 (api_key dev) (consumed 2 w)) as Heq.
      fold m1 m2 in Heq. rewrite Hdec1, Hdec2 in Heq. simpl in Heq.
      assert (decision a1 b1 r1 (overhead_of (hub w))
              = decision a2 b2 r2 (overhead_of (hub w))) as Hd by congruence.
      apply decision_inj in Hd as (-> & -> & -> & _).
      erewrite (send_forwarded _ m1) by done.
      erewrite (send_forwarded _ m2) by done.
      by unfold fallback_draw. }
  unfold Device.send_action.
  destruct (Hsend (default ∅ p1) (default ∅ p2)) as (Hres & Hhub & Hcur).
  destruct p1, p2; simpl in *; by repeat split.
Qed.

(** ** The default policy *)

Lemma default_rbac_policies_lookup (role : string) :
  Controller.default_rbac_policies !! role
  = if String.eqb role "sensor" then Some {[ "send_status" ]}
    else if String.eqb role "robot"
         then Some {[ "move"; "shutdown"; "send_status" ]}
    else if String.eqb role "viewer" then Some {[ "read_status" ]}
    else None.
Proof.
  unfold Controller.default_rbac_policies.
  destruct (String.eqb_spec role "sensor") as [->|Hsensor]; [done|].
  rewrite lookup_insert_ne by done.
  destruct (String.eqb_spec role "robot") as [->|Hrobot]; [done|].
  rewrite lookup_insert_ne by done.
  destruct (String.eqb_spec role "viewer") as [->|Hviewer]; [done|].
  by rewrite lookup_singleton_ne by done.
Qed.

(** X9. A controller constructed with an empty policy dict gets the default
    policy, exactly as when no policy is given, so passing [{}] does not
    configure a controller that forbids everything; a non-empty policy is
    kept as it is. The registry of a new controller is empty. *)
Theorem controller_init_policy (m : string) (o : Q) :
  m = "weak" \/ m = "secure" ->
  Controller.__init__ m (Some ∅) o = Controller.__init__ m None o
  /\ Controller.__init__ m None o
     = Return (mkController m ∅ o Controller.default_rbac_policies)
  /\ forall (p : gmap string (gset string)),
       p <> ∅ -> Controller.__init__ m (Some p) o = Return (mkController m ∅ o p).
Proof.
  intros Hmode. unfold Controller.__init__.
  assert (bool_decide (m ∈ ({[ "weak"; "secure" ]} : gset string)) = true) as ->.
  { by destruct Hmode as [-> | ->]. }
  simpl. split; [done|]. split; [done|].
  intros p Hp. by rewrite bool_decide_eq_false_2.
Qed.

Lemma controller_init_policy_witness :
  Controller.__init__ "secure" (Some ∅) 5
  = Return (mkController "secure" ∅ 5 Controller.default_rbac_policies).
Proof.
  destruct (controller_init_policy "secure" 5 (or_intror eq_refl)) as (-> & -> & _).
  reflexivity.
Defined.

(** X10. Under the default policy the action the driver chooses for a
    legitimate device is allowed exactly for the three roles it assigns
    (sensor, robot, viewer), and the malicious action "shutdown" is allowed
    exactly for the role robot, the role the rogue device claims by
    default: the policy alone does not stop it. *)
Theorem default_policy_and_chosen_actions (self : Controller) (role : string) :
  rbac_policies self = Controller.default_rbac_policies ->
  (fst (Controller._authorise self role (Experiment._choose_legitimate_action role))
   = true
   <-> role ∈ Experiment.role_cycle)
  /\ (fst (Controller._authorise self role Experiment._choose_malicious_action)
      = true
      <-> role = "robot").
Proof.
  intros Hpolicy.
  unfold Controller._authorise, Experiment._choose_legitimate_action,
    Experiment._choose_malicious_action, Experiment.role_cycle.
  rewrite Hpolicy, default_rbac_policies_lookup.
  destruct (String.eqb_spec role "sensor") as [->|Hsensor].
  { split; split; try done. intros _. by apply (bool_decide_unpack _). }
  destruct (String.eqb_spec role "robot") as [->|Hrobot].
  { split; split; try done. intros _. by apply (bool_decide_unpack _). }
  destruct (String.eqb_spec role "viewer") as [->|Hviewer].
  { split; split; try done. intros _. by apply (bool_decide_unpack _). }
  simpl. split; split; try done.
  intros Hin. apply list_elem_of_In in Hin. simpl in Hin.
  destruct Hin as [Heq|[Heq|[Heq|[]]]]; congruence.
Qed.

Lemma default_policy_and_chosen_actions_witness :
  fst (Controller._authorise (test_controller "secure") "viewer"
         (Experiment._choose_legitimate_action "viewer")) = true
  /\ fst (Controller._authorise (test_controller "secure") "viewer"
            Experiment._choose_malicious_action) <> true.
Proof.
  destruct (default_policy_and_chosen_actions (test_controller "secure") "viewer"
              eq_refl) as [Hlegit Hrogue].
  split.
  - apply Hlegit. by apply (bool_decide_unpack _).
  - intros Hacc. apply Hrogue in Hacc. discriminate.
Defined.

(** ** Loops *)

(** A loop whose body returns and keeps an invariant indexed by the number
    of iterations returns, and the invariant holds at the end. *)
Lemma for_each_invariant {A St : Type} (I : nat -> St -> World -> Prop)
    (l : list A) (body : A -> St -> M St) :
  (forall (i : nat) (x : A) (s : St) (w : World),
     l !! i = Some x -> I i s w ->
     exists (s' : St) (w' : World),
       body x s w = (Return s', w') /\ I (S i) s' w') ->
  forall (s : St) (w : World),
    I 0%nat s w ->
    exists (s' : St) (w' : World),
      for_each l body s w = (Return s', w') /\ I (length l) s' w'.
Proof.
  revert I. induction l as [|x l IH]; intros I Hbody s w Hinit.
  - by exists s, w.
  - destruct (Hbody 0%nat x s w eq_refl Hinit) as (s1 & w1 & Hstep & Hinv).
    destruct (IH (fun i => I (S i))
                (fun i y => Hbody (S i) y) s1 w1 Hinv) as (s2 & w2 & Hrest & Hend).
    exists s2, w2. split; [|done].
    simpl. unfold bind. by rewrite Hstep.
Qed.

(** A loop stops at the first iteration that raises. *)
Lemma for_each_raise {A St : Type} (x : A) (l : list A) (body : A -> St -> M St)
    (s : St) (w w' : World) (e : Exn) :
  body x s w = (Raise e, w') ->
  for_each (x :: l) body s w = (Raise e, w').
Proof. intros Hbody. simpl. unfold bind. by rewrite Hbody. Qed.

Lemma range_lookup (n : Z) (i x : nat) :
  range n !! i = Some x <-> x = i /\ (i < Z.to_nat n)%nat.
Proof. unfold range. rewrite lookup_seq. naive_solver. Qed.

Lemma range_length (n : Z) : length (range n) = Z.to_nat n.
Proof. unfold range. apply length_seq. Qed.

(** ** Names, roles and keys of the devices of an experiment *)

Lemma device_name_inj (i j : nat) :
  Experiment.device_name i = Experiment.device_name j -> i = j.
Proof.
  unfold Experiment.device_name. intros Heq.
  apply (inj (String.app "device_")) in Heq.
  apply (inj pretty) in Heq. lia.
Qed.

Lemma legit_role_in_cycle (i : nat) : legit_role i ∈ Experiment.role_cycle.
Proof.
  unfold legit_role.
  change (length Experiment.role_cycle) with 3%nat.
  assert (i mod 3 < 3)%nat as Hlt by (apply Nat.mod_upper_bound; lia).
  destruct (i mod 3)%nat as [|[|[|k]]]; [| | |lia];
    by apply (bool_decide_unpack _).
Qed.

(** ** Setting up an experiment *)

Lemma controller_init_valid (m : string) (o : Q) :
  m = "weak" \/ m = "secure" ->
  Controller.__init__ m None o
  = Return (mkController m ∅ o Controller.default_rbac_policies).
Proof. by intros [-> | ->]. Qed.

Lemma controller_init_invalid (m : string)
    (rbac : option (gmap string (gset string))) (o : Q) :
  m <> "weak" -> m <> "secure" ->
  Controller.__init__ m rbac o
  = Raise (ValueError "mode must be 'weak' or 'secure'").
Proof.
  intros Hweak Hsecure. unfold Controller.__init__.
  rewrite bool_decide_eq_false_2; [done|].
  by intros [Hin%elem_of_singleton | Hin%elem_of_singleton]%elem_of_union.
Qed.

Lemma registry_of_S (mode : string) (n : nat) :
  registry_of mode (S n)
  = <[ Experiment.device_name n :=
         RegisteredDevice.mk (Experiment.device_name n) (legit_role n)
           (legit_key mode n) ]> (registry_of mode n).
Proof. unfold registry_of. by rewrite seq_S, foldl_app. Qed.

(** The registry holds the devices the driver named, and nothing else. *)
Lemma registry_of_lookup (mode : string) (n : nat) (id : string) :
  (forall (i : nat),
     (i < n)%nat -> id = Experiment.device_name i ->
     registry_of mode n !! id
     = Some (RegisteredDevice.mk (Experiment.device_name i) (legit_role i)
               (legit_key mode i)))
  /\ ((forall (i : nat), (i < n)%nat -> id <> Experiment.device_name i) ->
      registry_of mode n !! id = None).
Proof.
  induction n as [|n [IHsome IHnone]].
  - split; [lia | done].
  - rewrite registry_of_S. split.
    + intros i Hi ->.
      destruct (decide (i = n)) as [->|Hne].
      * by rewrite lookup_insert_eq.
      * rewrite lookup_insert_ne.
        -- apply IHsome; [lia | done].
        -- intros Heq. by apply device_name_inj in Heq.
    + intros Hfresh. rewrite lookup_insert_ne.
      * apply IHnone. intros i Hi. apply Hfresh. lia.
      * intros Heq. by apply (Hfresh n); [lia|].
Qed.

(** With a recognised mode the set-up returns the network, the devices and
    the rogue device of the configuration, and leaves a new controller with
    the devices registered; it makes no draw. *)
Lemma create_devices_and_controller_valid (mode : string) (config : Config.t)
    (w : World) :
  mode = "weak" \/ mode = "secure" ->
  Experiment._create_devices_and_controller mode config w
  = (Return (config_network config,
             legit_device mode (config_network config)
               <$> seq 0 (config_devices config),
             config_rogue mode config),
     mkWorld (created_hub mode config) (tape w) (cursor w) (processed w)).
Proof.
  intros Hmode.
  unfold Experiment._create_devices_and_controller, bind, lift.
  rewrite controller_init_valid by done.
  unfold set_hub at 1; simpl.
  set (net := mkNetworkSimulator _ _).
  set (o := default 5%Q _).
  set (body := fun (i : nat) (legit_devices : list Device) => _).
  destruct (for_each_invariant
              (fun k devices v =>
                 devices = legit_device mode net <$> seq 0 k
                 /\ v = mkWorld
                          (mkController mode (registry_of mode k) o
                             Controller.default_rbac_policies)
                          (tape w) (cursor w) (processed w))
              (range (default 3%Z (Config.num_legit_devices config))) body)
    with (s := @nil Device)
         (w := mkWorld (mkController mode ∅ o Controller.default_rbac_policies)
                 (tape w) (cursor w) (processed w))
    as (devices & w' & Hloop & -> & ->).
  - intros i x devices v [-> Hi]%range_lookup [-> ->].
    eexists _, _. split; [reflexivity|]. split.
    + by rewrite seq_S, fmap_app.
    + simpl. by rewrite registry_of_S.
  - done.
  - rewrite Hloop, range_length. reflexivity.
Qed.

(** With any other mode the set-up raises before anything is registered. *)
Lemma create_devices_and_controller_invalid (mode : string) (config : Config.t)
    (w : World) :
  mode <> "weak" -> mode <> "secure" ->
  Experiment._create_devices_and_controller mode config w
  = (Raise (ValueError "mode must be 'weak' or 'secure'"), w).
Proof.
  intros Hweak Hsecure.
  unfold Experiment._create_devices_and_controller, bind, lift.
  by rewrite controller_init_invalid.
Qed.

(** ** The traffic of an experiment *)

(** Sending returns and leaves the controller as it was. *)
Lemma send_action_returns (h : Controller) (dev : Device) (action : string)
    (w : World) :
  hub w = h ->
  exists (res : MessageResult) (w' : World),
    Device.send_action dev action None w = (Return res, w')
    /\ hub w' = h /\ sent_by h dev action res.
Proof.
  intros Hhub. unfold Device.send_action.
  set (message := Message.mk _ _ _ _ _).
  destruct (send_shape (network dev) message w) as (res & n & Hsend & _).
  eexists res, _. split; [exact Hsend|]. split.
  - by destruct (delivered res).
  - eexists w, _. split; [done|]. exact Hsend.
Qed.

(** The messages one device sends in a row: each adds one record. *)
Lemma traffic_loop (h : Controller) (source : string) (dev : Device)
    (action : string) (n : Z) (records : list (gmap string Value)) (w : World) :
  hub w = h ->
  exists (new : list (gmap string Value)) (w' : World),
    for_each (range n)
      (fun (_ : nat) (records : list (gmap string Value)) =>
         do result <- Device.send_action dev action None;
         ret (records ++ [Experiment.record_of source dev action result])%list)
      records w
    = (Return (records ++ new)%list, w')
    /\ hub w' = h
    /\ length new = Z.to_nat n
    /\ Forall (record_sent h source dev action) new.
Proof.
  intros Hhub.
  destruct (for_each_invariant
              (fun k s v =>
                 hub v = h
                 /\ exists new, s = (records ++ new)%list /\ length new = k
                                /\ Forall (record_sent h source dev action) new)
              (range n)
              (fun (_ : nat) (records : list (gmap string Value)) =>
                 do result <- Device.send_action dev action None;
                 ret (records ++ [Experiment.record_of source dev action result])%list))
    with (s := records) (w := w)
    as (s' & w' & Hloop & Hhub' & new & -> & Hlen & Hall).
  - intros i x s v _ (Hv & new & -> & Hlen & Hall).
    destruct (send_action_returns h dev action v Hv)
      as (res & v' & Hsend & Hv' & Hsent).
    exists ((records ++ new) ++ [Experiment.record_of source dev action res])%list, v'.
    split; [unfold bind; by rewrite Hsend|].
    split; [done|].
    exists (new ++ [Experiment.record_of source dev action res])%list.
    split; [by rewrite app_assoc|]. split.
    + rewrite length_app. simpl. lia.
    + apply Forall_app. split; [done|]. apply Forall_singleton. by exists res.
  - split; [done|]. exists []. by rewrite app_nil_r.
  - exists new, w'. rewrite range_length in Hlen. by repeat split.
Qed.

(** The legitimate traffic: every device of the list sends [m] messages. *)
Lemma legit_traffic (h : Controller) (mode : string) (net : NetworkSimulator)
    (n : nat) (m : Z) (w : World) :
  hub w = h ->
  exists (legit : list (gmap string Value)) (w' : World),
    for_each (legit_device mode net <$> seq 0 n)
      (fun (device : Device) (records : list (gmap string Value)) =>
         for_each (range m)
           (fun (_ : nat) (records : list (gmap string Value)) =>
              let action := Experiment._choose_legitimate_action (role device) in
              do result <- Device.send_action device action None;
              ret (records
                   ++ [Experiment.record_of "legitimate" device action result])%list)
           records)
      [] w
    = (Return legit, w')
    /\ hub w' = h
    /\ length legit = (n * Z.to_nat m)%nat
    /\ Forall
         (fun r =>
            exists (i : nat),
              (i < n)%nat
              /\ record_sent h "legitimate" (legit_device mode net i)
                   (Experiment._choose_legitimate_action (legit_role i)) r)
         legit.
Proof.
  intros Hhub.
  set (body := fun (device : Device) (records : list (gmap string Value)) => _).
  destruct (for_each_invariant
              (fun k s v =>
                 hub v = h
                 /\ length s = (k * Z.to_nat m)%nat
                 /\ Forall
                      (fun r =>
                         exists (i : nat),
                           (i < k)%nat
                           /\ record_sent h "legitimate" (legit_device mode net i)
                                (Experiment._choose_legitimate_action (legit_role i))
                                r)
                      s)
              (legit_device mode net <$> seq 0 n) body)
    with (s := @nil (gmap string Value)) (w := w)
    as (legit & w' & Hloop & Hhub' & Hlen & Hall).
  - intros k dev s v Hdev (Hv & Hlen & Hall).
    rewrite list_lookup_fmap in Hdev.
    destruct (seq 0 n !! k) as [i|] eqn:Hi; [|done].
    apply lookup_seq in Hi as [-> Hk]. simpl in Hdev.
    injection Hdev as <-.
    destruct (traffic_loop h "legitimate" (legit_device mode net k)
                (Experiment._choose_legitimate_action (legit_role k)) m s v Hv)
      as (new & v' & Hblock & Hv' & Hnew & Hsent).
    exists (s ++ new)%list, v'. split; [exact Hblock|]. split; [done|]. split.
    + rewrite length_app. lia.
    + apply Forall_app. split.
      * eapply Forall_impl; [exact Hall|].
        intros r (i & Hi & Hr). exists i. split; [lia | done].
      * eapply Forall_impl; [exact Hsent|].
        intros r Hr. exists k. split; [lia | done].
  - by repeat split.
  - rewrite length_fmap, length_seq in Hlen, Hall.
    by exists legit, w'.
Qed.

Lemma bind_return {A B : Type} (m : M A) (k : A -> M B) (w w' : World) (a : A) :
  m w = (Return a, w') -> bind m k w = k a w'.
Proof. intros Hm. unfold bind. by rewrite Hm. Qed.

Lemma bind_raise {A B : Type} (m : M A) (k : A -> M B) (w w' : World) (e : Exn) :
  m w = (Raise e, w') -> bind m k w = (Raise e, w').
Proof. intros Hm. unfold bind. by rewrite Hm. Qed.

(** A run returns the records of the legitimate traffic followed by those
    of the rogue traffic, all sent to the controller the set-up created. *)
Lemma run_experiment_records (mode : string) (config : Config.t) (w : World) :
  mode = "weak" \/ mode = "secure" ->
  let h := created_hub mode config in
  exists (legit rogue : list (gmap string Value)) (w' : World),
    Experiment.run_experiment mode config w
    = (Return (Results.mk mode config (legit ++ rogue)), w')
    /\ hub w' = h
    /\ length legit = (config_devices config * config_legit_messages config)%nat
    /\ length rogue = config_rogue_messages config
    /\ Forall
         (fun r =>
            exists (i : nat),
              (i < config_devices config)%nat
              /\ record_sent h "legitimate"
                   (legit_device mode (config_network config) i)
                   (Experiment._choose_legitimate_action (legit_role i)) r)
         legit
    /\ Forall
         (record_sent h "rogue" (config_rogue mode config)
            Experiment._choose_malicious_action)
         rogue.
Proof.
  intros Hmode h.
  unfold Experiment.run_experiment.
  rewrite (bind_return _ _ _ _ _
             (create_devices_and_controller_valid mode config w Hmode)).
  cbv beta iota.
  destruct (legit_traffic h mode (config_network config) (config_devices config)
              (default 100%Z (Config.num_legit_messages_per_device config))
              (mkWorld h (tape w) (cursor w) (processed w)) eq_refl)
    as (legit & w1 & Hlegit & Hhub1 & Hlen1 & Hall1).
  destruct (traffic_loop h "rogue" (config_rogue mode config)
              Experiment._choose_malicious_action
              (default 100%Z (Config.num_rogue_messages config)) legit w1 Hhub1)
    as (rogue & w2 & Hrogue & Hhub2 & Hlen2 & Hall2).
  exists legit, rogue, w2.
  split; [|by repeat split].
  eapply eq_trans; [exact (bind_return _ _ _ _ _ Hlegit)|].
  eapply eq_trans; [exact (bind_return _ _ _ _ _ Hrogue)|].
  reflexivity.
Qed.

(** ** Summaries of well-formed records *)

Lemma for_each_pure {A St : Type} (g : St -> A -> St) (l : list A)
    (body : A -> St -> M St) (s : St) (w : World) :
  Forall (fun x => forall (t : St), body x t w = (Return (g t x), w)) l ->
  for_each l body s w = (Return (fold_left g l s), w).
Proof.
  intros Hbody. revert s.
  induction Hbody as [|x l Hx _ IH]; intros s; [done|].
  simpl. by rewrite (bind_return _ _ _ _ _ (Hx s)).
Qed.

Lemma filter_by_pure {A : Type} (f : A -> bool) (keep : A -> M bool)
    (l : list A) (w : World) :
  Forall (fun x => keep x w = (Return (f x), w)) l ->
  filter_by keep l w = (Return (List.filter f l), w).
Proof.
  induction 1 as [|x l Hx _ IH]; [done|].
  simpl. rewrite (bind_return _ _ _ _ _ Hx), (bind_return _ _ _ _ _ IH).
  by destruct (f x).
Qed.

Lemma Forall_list_filter {A : Type} (P : A -> Prop) (f : A -> bool) (l : list A) :
  Forall P l -> Forall P (List.filter f l).
Proof.
  induction 1 as [|x l Hx _ IH]; [done|].
  simpl. destruct (f x); [by constructor | done].
Qed.

Lemma list_filter_length {A : Type} (f : A -> bool) (l : list A) :
  (length (List.filter f l) <= length l)%nat.
Proof. induction l as [|x l IH]; simpl; [lia|]. destruct (f x); simpl; lia. Qed.

(** What the summary reads off a record of [run_experiment]. *)
Lemma record_of_fields (source : string) (dev : Device) (action : string)
    (res : MessageResult) :
  let r := Experiment.record_of source dev action res in
  r !! "source" = Some (VStr source)
  /\ r !! "delivered" = Some (VBool (delivered res))
  /\ r !! "latency_ms" = Some (VNum (latency_ms res))
  /\ r !! "accepted" = Some (VBool (accepted res))
  /\ r !! "authorised" = Some (VBool (authorised res)).
Proof. by repeat split. Qed.

Lemma getitem_field (key : string) (r : gmap string Value) (v : Value)
    (w : World) :
  r !! key = Some v ->
  getitem r key w = (Return v, w) /\ field key r = v.
Proof. intros Hv. unfold getitem, field. by rewrite Hv. Qed.

Section summarise.

Context (w : World).

Lemma keep_source (source : string) (rs : list (gmap string Value)) :
  Forall well_formed rs ->
  filter_by (fun r => do v <- getitem r "source"; ret (eq_str v source)) rs w
  = (Return (List.filter (source_is source) rs), w).
Proof.
  intros Hrs. apply filter_by_pure.
  eapply Forall_impl; [exact Hrs|].
  intros r (src & dev & action & res & ->).
  destruct (record_of_fields src dev action res) as (Hsrc & _).
  destruct (getitem_field _ _ _ w Hsrc) as [Hget Hfield].
  rewrite (bind_return _ _ _ _ _ Hget).
  unfold source_is. by rewrite Hfield.
Qed.

Lemma keep_flag (key : string) (rs : list (gmap string Value)) :
  key = "delivered" \/ key = "accepted" ->
  Forall well_formed rs ->
  filter_by (fun r => do v <- getitem r key; ret (is_true v)) rs w
  = (Return (List.filter (flag key) rs), w).
Proof.
  intros Hkey Hrs. apply filter_by_pure.
  eapply Forall_impl; [exact Hrs|].
  intros r (src & dev & action & res & ->).
  destruct (record_of_fields src dev action res) as (_ & Hdel & _ & Hacc & _).
  destruct Hkey as [-> | ->].
  - destruct (getitem_field _ _ _ w Hdel) as [Hget Hfield].
    rewrite (bind_return _ _ _ _ _ Hget). unfold flag. by rewrite Hfield.
  - destruct (getitem_field _ _ _ w Hacc) as [Hget Hfield].
    rewrite (bind_return _ _ _ _ _ Hget). unfold flag. by rewrite Hfield.
Qed.

Lemma keep_unauthorised (rs : list (gmap string Value)) :
  Forall well_formed rs ->
  filter_by
    (fun r =>
       do a <- getitem r "accepted";
       if is_true a then
         do b <- getitem r "authorised"; ret (negb (is_true b))
       else ret false)
    rs w
  = (Return (List.filter
               (fun r => flag "accepted" r && negb (flag "authorised" r)) rs),
     w).
Proof.
  intros Hrs. apply filter_by_pure.
  eapply Forall_impl; [exact Hrs|].
  intros r (src & dev & action & res & ->).
  destruct (record_of_fields src dev action res) as (_ & _ & _ & Hacc & Haut).
  destruct (getitem_field _ _ _ w Hacc) as [Hget Hfield].
  destruct (getitem_field _ _ _ w Haut) as [Hget' Hfield'].
  rewrite (bind_return _ _ _ _ _ Hget). unfold flag. rewrite Hfield, Hfield'.
  simpl. destruct (accepted res); [|done].
  by rewrite (bind_return _ _ _ _ _ Hget').
Qed.

Lemma avg_latency_spec (rs : list (gmap string Value)) :
  Forall well_formed rs ->
  Experiment._avg_latency rs w = (Return (avg_of rs), w).
Proof.
  intros Hrs. unfold Experiment._avg_latency, avg_of.
  rewrite (bind_return _ _ _ _ _ (keep_flag "delivered" rs (or_introl eq_refl) Hrs)).
  pose proof (Forall_list_filter _ (flag "delivered") _ Hrs) as Hdel.
  destruct (List.filter (flag "delivered") rs) as [|d ds]; [done|].
  erewrite bind_return; [reflexivity|].
  apply for_each_pure.
  eapply Forall_impl; [exact Hdel|].
  intros r (src & dev & action & res & ->) total.
  destruct (record_of_fields src dev action res) as (_ & _ & Hlat & _).
  destruct (getitem_field _ _ _ w Hlat) as [Hget Hfield].
  rewrite (bind_return _ _ _ _ _ Hget). unfold latency_of. by rewrite Hfield.
Qed.

(** On the records of a run the summary returns, and it is [summary_of]. *)
Lemma summarise_results_spec (mode : string) (config : Config.t)
    (records : list (gmap string Value)) :
  Forall well_formed records ->
  Experiment.summarise_results (Results.mk mode config records) w
  = (Return (summary_of mode records), w).
Proof.
  intros Hrs. unfold Experiment.summarise_results. simpl.
  pose proof (Forall_list_filter _ (source_is "legitimate") _ Hrs) as Hlegit.
  pose proof (Forall_list_filter _ (source_is "rogue") _ Hrs) as Hrogue.
  rewrite (bind_return _ _ _ _ _ (keep_source "legitimate" records Hrs)).
  rewrite (bind_return _ _ _ _ _ (keep_source "rogue" records Hrs)).
  rewrite (bind_return _ _ _ _ _
             (keep_flag "accepted" _ (or_intror eq_refl) Hrogue)).
  rewrite (bind_return _ _ _ _ _ (keep_unauthorised _ Hrogue)).
  rewrite (bind_return _ _ _ _ _
             (keep_flag "accepted" _ (or_intror eq_refl) Hlegit)).
  rewrite (bind_return _ _ _ _ _ (avg_latency_spec records Hrs)).
  rewrite (bind_return _ _ _ _ _ (avg_latency_spec _ Hlegit)).
  rewrite (bind_return _ _ _ _ _ (avg_latency_spec _ Hrogue)).
  reflexivity.
Qed.

End summarise.

(** ** One message of an experiment *)

(** The message [Device.send_action] builds without a payload. *)
Lemma sent_by_inv (h : Controller) (dev : Device) (action : string)
    (res : MessageResult) :
  sent_by h dev action res ->
  let message :=
    Message.mk (device_id dev) (role dev) action ∅ (api_key dev) in
  exists (w0 : World),
    hub w0 = h
    /\ (((next_draw w0 1 < loss_probability (network dev))%Q
         /\ res = mkMessageResult false (base_latency (network dev) w0)
                    false false "network_drop")
        \/ ((loss_probability (network dev) <= next_draw w0 1)%Q
            /\ delivered res = true
            /\ latency_ms res = (base_latency (network dev) w0 + overhead_of h)%Q
            /\ exists (w' : World),
                 Controller.process_message message (consumed 2 w0)
                 = (Return (decision (accepted res) (authorised res) (reason res)
                              (overhead_of h)), w'))).
Proof.
  intros (w0 & w1 & Hhub & Hsend) message. exists w0. split; [done|].
  unfold Device.send_action in Hsend. simpl in Hsend. fold message in Hsend.
  destruct (Qlt_le_dec (next_draw w0 1) (loss_probability (network dev)))
    as [Hdrop|Hkeep].
  - left. split; [done|].
    rewrite send_dropped in Hsend by done.
    by apply returned_inj in Hsend as [<- _].
  - right. split; [done|].
    destruct (process_message_shape message (consumed 2 w0))
      as (a & b & r & n & Hdec & _).
    erewrite send_forwarded in Hsend by done.
    apply returned_inj in Hsend as [<- _]. simpl in *.
    rewrite Hhub in Hdec. repeat split; try by rewrite Hhub. by eexists.
Qed.

(** In secure mode a message is accepted only together with being
    authorised, and only when its device authenticates. *)
Lemma sent_by_secure (h : Controller) (dev : Device) (action : string)
    (res : MessageResult) :
  mode h = "secure" ->
  sent_by h dev action res ->
  accepted res = authorised res
  /\ (accepted res = true ->
      exists (registered : RegisteredDevice.t) (key : string),
        device_registry h !! device_id dev = Some registered
        /\ RegisteredDevice.api_key registered = Some key
        /\ api_key dev = Some key).
Proof.
  intros Hmode Hsent.
  destruct (sent_by_inv _ _ _ _ Hsent) as (w0 & Hhub & [[_ ->] | Hfwd]).
  { by split. }
  destruct Hfwd as (_ & _ & _ & w' & Hdec).
  set (message := Message.mk _ _ _ _ _) in Hdec.
  assert (mode (hub (consumed 2 w0)) = "secure") as Hmode' by (by simpl; rewrite Hhub).
  destruct (Controller._authenticate_secure (hub (consumed 2 w0)) message)
    as [[|] auth_reason] eqn:Hauth.
  - rewrite (process_secure_authenticated message _ auth_reason) in Hdec by done.
    apply returned_inj in Hdec as [Hdec _].
    destruct (authenticate_secure_success _ _ _ Hauth)
      as (registered & key & Hreg & Hkey & _ & Hcred).
    simpl in Hreg, Hcred. rewrite Hhub in Hreg.
    destruct (bool_decide _);
      apply decision_inj in Hdec as (<- & <- & _); (split; [done|]);
      intros _; by exists registered, key.
  - rewrite (process_secure_rejected message _ auth_reason) in Hdec by done.
    apply returned_inj in Hdec as [Hdec _].
    by apply decision_inj in Hdec as (<- & <- & _).
Qed.

(** In weak mode a message from an unregistered device is never
    authorised, and one from a registered device is accepted and authorised
    whenever it is delivered. *)
Lemma sent_by_weak (h : Controller) (dev : Device) (action : string)
    (res : MessageResult) :
  mode h = "weak" ->
  sent_by h dev action res ->
  (device_registry h !! device_id dev = None -> authorised res = false)
  /\ (is_Some (device_registry h !! device_id dev) ->
      accepted res = delivered res /\ authorised res = delivered res).
Proof.
  intros Hmode Hsent.
  destruct (sent_by_inv _ _ _ _ Hsent) as (w0 & Hhub & [[_ ->] | Hfwd]).
  { by split. }
  destruct Hfwd as (_ & Hdel & _ & w' & Hdec).
  set (message := Message.mk _ _ _ _ _) in Hdec.
  assert (mode (hub (consumed 2 w0)) = "weak") as Hmode' by (by simpl; rewrite Hhub).
  split.
  - intros Hreg.
    rewrite process_weak_unknown in Hdec; [|done|by simpl; rewrite Hhub].
    apply returned_inj in Hdec as [Hdec _].
    destruct (Qltb _ _); by apply decision_inj in Hdec as (_ & <- & _).
  - intros Hreg.
    rewrite process_weak_known in Hdec; [|done|by simpl; rewrite Hhub].
    apply returned_inj in Hdec as [Hdec _].
    apply decision_inj in Hdec as (<- & <- & _). by rewrite Hdel.
Qed.

(** Delivery and latency of one message. *)
Lemma sent_by_network (h : Controller) (dev : Device) (action : string)
    (res : MessageResult) :
  sent_by h dev action res ->
  ((loss_probability (network dev) <= 0)%Q -> delivered res = true)
  /\ ((1 <= loss_probability (network dev))%Q ->
      delivered res = false /\ accepted res = false /\ authorised res = false)
  /\ ((fst (latency_range_ms (network dev))
       <= snd (latency_range_ms (network dev)))%Q ->
      (0 <= security_overhead_ms h)%Q ->
      (fst (latency_range_ms (network dev)) <= latency_ms res)%Q
      /\ (latency_ms res
          <= snd (latency_range_ms (network dev)) + security_overhead_ms h)%Q).
Proof.
  intros Hsent.
  destruct (sent_by_inv _ _ _ _ Hsent) as (w0 & Hhub & Hcases).
  pose proof (next_draw_range w0 0) as [Hu0 Hu1].
  pose proof (next_draw_range w0 1) as [Hv0 Hv1].
  assert (0 <= security_overhead_ms h ->
          0 <= overhead_of h <= security_overhead_ms h)%Q as Hover.
  { intros Hpos. unfold overhead_of. destruct (String.eqb _ _); split; lra. }
  destruct Hcases as [[Hdrop ->] | (Hkeep & Hdel & Hlat & _)]; simpl.
  - split; [intros Hle; lra|]. split; [done|].
    intros Hrange Hpos. unfold base_latency. split; nra.
  - split; [done|]. split; [intros Hle; lra|].
    intros Hrange Hpos. rewrite Hlat. destruct (Hover Hpos) as [Ho0 Ho1].
    unfold base_latency. split; nra.
Qed.

(** ** The devices of an experiment and the controller it creates *)

Lemma registry_of_lookup_Some (mode : string) (n : nat) (id : string)
    (registered : RegisteredDevice.t) :
  registry_of mode n !! id = Some registered ->
  exists (i : nat),
    (i < n)%nat /\ id = Experiment.device_name i
    /\ registered
       = RegisteredDevice.mk (Experiment.device_name i) (legit_role i)
           (legit_key mode i).
Proof.
  induction n as [|n IH]; [done|].
  rewrite registry_of_S, lookup_insert.
  destruct (decide (Experiment.device_name n = id)) as [<-|Hne].
  - intros [= <-]. exists n. by split; [lia|].
  - intros (i & Hi & Hrest)%IH. exists i. by split; [lia|].
Qed.

Lemma legit_action_allowed (role : string) :
  role ∈ Experiment.role_cycle ->
  Experiment._choose_legitimate_action role
  ∈ default ∅ (Controller.default_rbac_policies !! role).
Proof.
  intros Hin. apply list_elem_of_In in Hin. simpl in Hin.
  destruct Hin as [<-|[<-|[<-|[]]]]; by apply (bool_decide_unpack _).
Qed.

(** A legitimate device of the experiment is accepted and authorised
    whenever its message is delivered, in both modes. *)
Lemma sent_by_legit (mode : string) (config : Config.t) (i : nat)
    (res : MessageResult) :
  mode = "weak" \/ mode = "secure" ->
  (i < config_devices config)%nat ->
  sent_by (created_hub mode config) (legit_device mode (config_network config) i)
    (Experiment._choose_legitimate_action (legit_role i)) res ->
  accepted res = delivered res /\ authorised res = delivered res.
Proof.
  intros Hmode Hi Hsent.
  destruct (registry_of_lookup mode (config_devices config)
              (Experiment.device_name i)) as [Hreg _].
  specialize (Hreg i Hi eq_refl).
  destruct Hmode as [-> | ->].
  - destruct (sent_by_weak (created_hub "weak" config) _ _ _ eq_refl Hsent)
      as [_ Hknown].
    apply Hknown. by eexists.
  - destruct (sent_by_inv _ _ _ _ Hsent) as (w0 & Hhub & [[_ ->] | Hfwd]); [done|].
    destruct Hfwd as (_ & Hdel & _ & w' & Hdec).
    set (message := Message.mk _ _ _ _ _) in Hdec.
    rewrite (process_secure_authenticated message _ "auth_ok_secure") in Hdec.
    + rewrite bool_decide_eq_true_2 in Hdec.
      * apply returned_inj in Hdec as [Hdec _].
        apply decision_inj in Hdec as (<- & <- & _). by rewrite Hdel.
      * simpl. rewrite Hhub. apply legit_action_allowed, legit_role_in_cycle.
    + simpl. by rewrite Hhub.
    + simpl. rewrite Hhub.
      by apply (authenticate_secure_ok (created_hub "secure" config) message _ Hreg).
Qed.

(** In secure mode the rogue device is not accepted unless it names a
    registered device and holds the key of that device. *)
Lemma sent_by_rogue_secure (config : Config.t) (res : MessageResult) :
  (forall (i : nat),
     (i < config_devices config)%nat ->
     default "rogue_1" (Config.rogue_device_id config) = Experiment.device_name i ->
     default "invalid-key" (Config.rogue_api_key config)
     <> "key-" ++ Experiment.device_name i) ->
  sent_by (created_hub "secure" config) (config_rogue "secure" config)
    Experiment._choose_malicious_action res ->
  accepted res = false /\ authorised res = false.
Proof.
  intros Hkey Hsent.
  destruct (sent_by_secure (created_hub "secure" config) _ _ _ eq_refl Hsent)
    as [Heq Hauth].
  destruct (accepted res) eqn:Hacc; [|by rewrite <- Heq].
  destruct (Hauth eq_refl) as (registered & key & Hreg & Hstored & Hheld).
  apply registry_of_lookup_Some in Hreg as (i & Hi & Hid & ->).
  simpl in Hid, Hstored, Hheld.
  exfalso. apply (Hkey i Hi Hid).
  change (legit_key "secure" i)
    with (Some ("key-" ++ Experiment.device_name i)) in Hstored.
  congruence.
Qed.

(** ** Records by source *)

Lemma list_filter_all {A : Type} (f : A -> bool) (l : list A) :
  Forall (fun x => f x = true) l -> List.filter f l = l.
Proof.
  induction 1 as [|x l Hx _ IH]; [done|]. simpl. by rewrite Hx, IH.
Qed.

Lemma list_filter_none {A : Type} (f : A -> bool) (l : list A) :
  Forall (fun x => f x = false) l -> List.filter f l = [].
Proof.
  induction 1 as [|x l Hx _ IH]; [done|]. simpl. by rewrite Hx, IH.
Qed.

Lemma record_sent_well_formed (h : Controller) (source : string) (dev : Device)
    (action : string) (r : gmap string Value) :
  record_sent h source dev action r -> well_formed r.
Proof. intros (res & -> & _). by eexists _, _, _, _. Qed.

(** What the summary reads off the record of a message. *)
Lemma record_sent_reads (h : Controller) (source : string) (dev : Device)
    (action : string) (r : gmap string Value) :
  record_sent h source dev action r ->
  exists (res : MessageResult),
    sent_by h dev action res
    /\ (forall (s : string), source_is s r = String.eqb source s)
    /\ flag "delivered" r = delivered res
    /\ flag "accepted" r = accepted res
    /\ flag "authorised" r = authorised res
    /\ latency_of r = latency_ms res.
Proof. intros (res & -> & Hsent). exists res. by repeat split. Qed.

(** A run followed by its summary: the summary is [summary_of] on the
    legitimate records followed by the rogue records. *)
Lemma run_and_summarise_spec (mode : string) (config : Config.t) (w : World) :
  mode = "weak" \/ mode = "secure" ->
  let h := created_hub mode config in
  exists (legit rogue : list (gmap string Value)) (w' : World),
    run_and_summarise mode config w
    = (Return (summary_of mode (legit ++ rogue)), w')
    /\ List.filter (source_is "legitimate") (legit ++ rogue) = legit
    /\ List.filter (source_is "rogue") (legit ++ rogue) = rogue
    /\ length legit = (config_devices config * config_legit_messages config)%nat
    /\ length rogue = config_rogue_messages config
    /\ Forall
         (fun r =>
            exists (i : nat),
              (i < config_devices config)%nat
              /\ record_sent h "legitimate"
                   (legit_device mode (config_network config) i)
                   (Experiment._choose_legitimate_action (legit_role i)) r)
         legit
    /\ Forall
         (record_sent h "rogue" (config_rogue mode config)
            Experiment._choose_malicious_action)
         rogue.
Proof.
  intros Hmode h.
  destruct (run_experiment_records mode config w Hmode)
    as (legit & rogue & w' & Hrun & _ & Hlen1 & Hlen2 & Hall1 & Hall2).
  fold h in Hall1, Hall2.
  exists legit, rogue, w'.
  assert (Forall well_formed (legit ++ rogue)) as Hwf.
  { apply Forall_app. split.
    - eapply Forall_impl; [exact Hall1|].
      intros r (i & _ & Hr). by eapply record_sent_well_formed.
    - eapply Forall_impl; [exact Hall2|].
      intros r Hr. by eapply record_sent_well_formed. }
  assert (forall (s : string),
            List.filter (source_is s) legit
            = if String.eqb "legitimate" s then legit else []) as Hlegit.
  { intros s. destruct (String.eqb "legitimate" s) eqn:Hs;
      [apply list_filter_all | apply list_filter_none];
      (eapply Forall_impl; [exact Hall1|]);
      intros r (i & _ & (res & _ & Hsrc & _)%record_sent_reads);
      by rewrite Hsrc. }
  assert (forall (s : string),
            List.filter (source_is s) rogue
            = if String.eqb "rogue" s then rogue else []) as Hrogue.
  { intros s. destruct (String.eqb "rogue" s) eqn:Hs;
      [apply list_filter_all | apply list_filter_none];
      (eapply Forall_impl; [exact Hall2|]);
      intros r (res & _ & Hsrc & _)%record_sent_reads;
      by rewrite Hsrc. }
  split.
  { unfold run_and_summarise.
    rewrite (bind_return _ _ _ _ _ Hrun).
    by apply summarise_results_spec. }
  rewrite !List.filter_app, !Hlegit, !Hrogue. simpl.
  by rewrite app_nil_r.
Qed.

(** * Further properties of the experiment driver *)

(** X11. With a mode other than "weak" and "secure" the set-up and
    [run_experiment] raise [ValueError] before anything else happens: no
    device is registered, no message is sent, no draw is made. *)
Theorem run_experiment_unrecognised_mode
    (mode : string) (config : Config.t) (w : World) :
  mode <> "weak" -> mode <> "secure" ->
  Experiment._create_devices_and_controller mode config w
  = (Raise (ValueError "mode must be 'weak' or 'secure'"), w)
  /\ Experiment.run_experiment mode config w
     = (Raise (ValueError "mode must be 'weak' or 'secure'"), w).
Proof.
  intros Hweak Hsecure.
  pose proof (create_devices_and_controller_invalid mode config w Hweak Hsecure)
    as Hcreate.
  split; [done|].
  unfold Experiment.run_experiment. by rewrite (bind_raise _ _ _ _ _ Hcreate).
Qed.

Lemma run_experiment_unrecognised_mode_witness :
  Experiment.run_experiment "strict" test_config (test_start low_draw)
  = (Raise (ValueError "mode must be 'weak' or 'secure'"), test_start low_draw).
Proof.
  apply (run_experiment_unrecognised_mode "strict" test_config
           (test_start low_draw)); discriminate.
Defined.

(** X12. With a recognised mode the set-up replaces the controller by a new
    one in that mode, with the default policy and the configured overhead,
    and registers exactly the devices device_1 ... device_n, each with the
    role and the key its [Device] object holds: roles cycle through sensor,
    robot, viewer, and the key is "key-<id>" in secure mode and absent in
    weak mode. The rogue device is built and not registered by the set-up,
    and no draw is made. *)
Theorem create_devices_and_controller_registers
    (m : string) (config : Config.t) (w : World) :
  m = "weak" \/ m = "secure" ->
  exists (devices : list Device) (w' : World),
    Experiment._create_devices_and_controller m config w
    = (Return (config_network config, devices, config_rogue m config), w')
    /\ length devices = config_devices config
    /\ (forall (i : nat),
          (i < config_devices config)%nat ->
          exists (dev : Device),
            devices !! i = Some dev
            /\ device_id dev = "device_" ++ pretty (i + 1)%nat
            /\ Some (role dev) = Experiment.role_cycle !! (i mod 3)%nat
            /\ api_key dev
               = (if String.eqb m "secure" then Some ("key-" ++ device_id dev)
                  else None)
            /\ network dev = config_network config
            /\ device_registry (hub w') !! device_id dev
               = Some (RegisteredDevice.mk (device_id dev) (role dev) (api_key dev)))
    /\ (forall (id : string),
          is_Some (device_registry (hub w') !! id) ->
          exists (i : nat),
            (i < config_devices config)%nat /\ id = "device_" ++ pretty (i + 1)%nat)
    /\ mode (hub w') = m
    /\ rbac_policies (hub w') = Controller.default_rbac_policies
    /\ security_overhead_ms (hub w')
       = default 5%Q (Config.security_overhead_ms config)
    /\ tape w' = tape w /\ cursor w' = cursor w /\ processed w' = processed w.
Proof.
  intros Hmode.
  rewrite create_devices_and_controller_valid by done.
  eexists _, _. split; [reflexivity|]. simpl.
  split; [by rewrite length_fmap, length_seq|].
  split; [|split; [|done]].
  - intros i Hi. exists (legit_device m (config_network config) i).
    split; [|split; [done|split; [|split; [done|split; [done|]]]]].
    + rewrite list_lookup_fmap, lookup_seq_lt by done. reflexivity.
    + simpl. unfold legit_role.
      change (length Experiment.role_cycle) with 3%nat.
      change (2 - (Nat.divmod i 2 0 2).2)%nat with (i mod 3)%nat.
      assert (i mod 3 < 3)%nat as Hlt by (apply Nat.mod_upper_bound; lia).
      by destruct (i mod 3)%nat as [|[|[|k]]]; [| | |lia].
    + destruct (registry_of_lookup m (config_devices config)
                  (Experiment.device_name i)) as [Hreg _].
      by apply Hreg.
  - intros id [registered Hreg].
    apply registry_of_lookup_Some in Hreg as (i & Hi & -> & _).
    by exists i.
Qed.

Lemma create_devices_and_controller_registers_witness :
  exists (devices : list Device) (w' : World),
    Experiment._create_devices_and_controller "secure" test_config
      (test_start low_draw)
    = (Return (config_network test_config, devices,
               config_rogue "secure" test_config), w')
    /\ length devices = 2%nat
    /\ device_registry (hub w') !! "device_2"
       = Some (RegisteredDevice.mk "device_2" "robot" (Some "key-device_2"))
    /\ device_registry (hub w') !! "rogue_1" = None.
Proof.
  destruct (create_devices_and_controller_registers "secure" test_config
              (test_start low_draw) (or_intror eq_refl))
    as (devices & w' & Hcreate & Hlen & Hdev & Honly & _).
  exists devices, w'. split; [exact Hcreate|]. split; [exact Hlen|]. split.
  - destruct (Hdev 1%nat) as (dev & _ & Hid & Hrole & Hkey & _ & Hreg);
      [vm_compute; lia|].
    injection Hrole as Hrole.
    rewrite Hid in Hkey. rewrite Hid, Hrole, Hkey in Hreg. exact Hreg.
  - destruct (device_registry (hub w') !! "rogue_1") as [reg|] eqn:Hrogue; [|done].
    destruct (Honly "rogue_1") as (i & Hi & Hname); [by eexists|].
    vm_compute in Hi.
    destruct i as [|[|i]]; [discriminate Hname | discriminate Hname | lia].
Defined.

(** X13. With a recognised mode [run_experiment] returns, whatever the
    draws: its records are those of the legitimate traffic, one per device
    and message, followed by those of the rogue traffic; a count that is
    negative in the configuration counts as zero. The mode and the
    configuration are returned as given. *)
Theorem run_experiment_record_count
    (m : string) (config : Config.t) (w : World) :
  m = "weak" \/ m = "secure" ->
  exists (legit rogue : list (gmap string Value)) (w' : World),
    Experiment.run_experiment m config w
    = (Return (Results.mk m config (legit ++ rogue)), w')
    /\ length legit
       = (Z.to_nat (default 3%Z (Config.num_legit_devices config))
          * Z.to_nat (default 100%Z (Config.num_legit_messages_per_device config)))%nat
    /\ length rogue = Z.to_nat (default 100%Z (Config.num_rogue_messages config))
    /\ Forall (fun r => r !! "source" = Some (VStr "legitimate")) legit
    /\ Forall (fun r => r !! "source" = Some (VStr "rogue")
                        /\ r !! "action" = Some (VStr "shutdown")) rogue.
Proof.
  intros Hmode.
  destruct (run_experiment_records m config w Hmode)
    as (legit & rogue & w' & Hrun & _ & Hlen1 & Hlen2 & Hall1 & Hall2).
  exists legit, rogue, w'. split; [done|]. split; [done|]. split; [done|].
  split.
  - eapply Forall_impl; [exact Hall1|].
    intros r (i & _ & res & -> & _). reflexivity.
  - eapply Forall_impl; [exact Hall2|].
    intros r (res & -> & _). split; reflexivity.
Qed.

Lemma run_experiment_record_count_witness :
  exists (legit rogue : list (gmap string Value)) (w' : World),
    Experiment.run_experiment "weak" test_config (test_start low_draw)
    = (Return (Results.mk "weak" test_config (legit ++ rogue)), w')
    /\ length legit = 20%nat /\ length rogue = 10%nat.
Proof.
  destruct (run_experiment_record_count "weak" test_config (test_start low_draw)
              (or_introl eq_refl))
    as (legit & rogue & w' & Hrun & Hlen1 & Hlen2 & _).
  exists legit, rogue, w'.
  split; [exact Hrun|]. split; [exact Hlen1 | exact Hlen2].
Defined.

(** X14. Summarising the results of a run never raises, and the counts are
    consistent: the total is the number of legitimate messages plus the
    number of rogue messages of the configuration, the accepted messages of
    each source are at most its messages, and the rogue messages accepted
    without authorisation are among the rogue messages accepted. *)
Theorem run_and_summarise_counts
    (m : string) (config : Config.t) (w : World) :
  m = "weak" \/ m = "secure" ->
  exists (s : Summary.t) (w' : World),
    run_and_summarise m config w = (Return s, w')
    /\ Summary.mode s = m
    /\ Summary.total_legitimate s
       = (config_devices config * config_legit_messages config)%nat
    /\ Summary.total_rogue s = config_rogue_messages config
    /\ Summary.total_messages s
       = (Summary.total_legitimate s + Summary.total_rogue s)%nat
    /\ (Summary.legitimate_accepted s <= Summary.total_legitimate s)%nat
    /\ (Summary.rogue_unauthorised_accepted s <= Summary.rogue_accepted s)%nat
    /\ (Summary.rogue_accepted s <= Summary.total_rogue s)%nat.
Proof.
  intros Hmode.
  destruct (run_and_summarise_spec m config w Hmode)
    as (legit & rogue & w' & Hrun & Hlegit & Hrogue & Hlen1 & Hlen2 & _).
  eexists _, w'. split; [exact Hrun|]. simpl.
  rewrite Hlegit, Hrogue, length_app.
  split; [done|]. split; [done|]. split; [done|]. split; [lia|].
  split; [apply list_filter_length|]. split; [|apply list_filter_length].
  clear. induction rogue as [|r rogue IH]; simpl; [lia|].
  destruct (flag "accepted" r), (flag "authorised" r); simpl; lia.
Qed.

Lemma run_and_summarise_counts_witness :
  exists (s : Summary.t) (w' : World),
    run_and_summarise "secure" test_config (test_start high_draw) = (Return s, w')
    /\ Summary.total_messages s = 30%nat
    /\ Summary.total_legitimate s = 20%nat
    /\ Summary.total_rogue s = 10%nat.
Proof.
  destruct (run_and_summarise_counts "secure" test_config (test_start high_draw)
              (or_intror eq_refl))
    as (s & w' & Hrun & _ & Hlegit & Hrogue & Htotal & _).
  exists s, w'. split; [exact Hrun|].
  rewrite Htotal, Hlegit, Hrogue. by repeat split.
Defined.

(** X15. In secure mode no rogue message is accepted, whatever the draws,
    the claimed role and the loss probability, unless the rogue device is
    configured with the id of a registered device and the key of that
    device; and no rogue message is ever accepted without authorisation. *)
Theorem secure_run_rejects_rogue (config : Config.t) (w : World) :
  (forall (i : nat),
     (i < config_devices config)%nat ->
     default "rogue_1" (Config.rogue_device_id config)
     = "device_" ++ pretty (i + 1)%nat ->
     default "invalid-key" (Config.rogue_api_key config)
     <> "key-" ++ "device_" ++ pretty (i + 1)%nat) ->
  exists (s : Summary.t) (w' : World),
    run_and_summarise "secure" config w = (Return s, w')
    /\ Summary.rogue_accepted s = 0%nat
    /\ Summary.rogue_unauthorised_accepted s = 0%nat.
Proof.
  intros Hkey.
  destruct (run_and_summarise_spec "secure" config w (or_intror eq_refl))
    as (legit & rogue & w' & Hrun & _ & Hrogue & _ & _ & _ & Hall).
  eexists _, w'. split; [exact Hrun|]. simpl. rewrite Hrogue.
  assert (Forall (fun r => flag "accepted" r = false) rogue) as Hrej.
  { eapply Forall_impl; [exact Hall|].
    intros r (res & Hsent & _ & _ & -> & _)%record_sent_reads.
    by destruct (sent_by_rogue_secure config res Hkey Hsent). }
  split.
  - by rewrite list_filter_none.
  - rewrite list_filter_none; [done|].
    eapply Forall_impl; [exact Hrej|]. by intros r ->.
Qed.

Lemma secure_run_rejects_rogue_witness :
  exists (s : Summary.t) (w' : World),
    run_and_summarise "secure" test_config (test_start low_draw) = (Return s, w')
    /\ Summary.rogue_accepted s = 0%nat
    /\ Summary.rogue_unauthorised_accepted s = 0%nat.
Proof.
  apply (secure_run_rejects_rogue test_config (test_start low_draw)).
  intros i Hi Hid. vm_compute in Hi.
  destruct i as [|[|i]]; [discriminate Hid | discriminate Hid | lia].
Defined.

Lemma list_filter_ext {A : Type} (f g : A -> bool) (l : list A) :
  Forall (fun x => f x = g x) l -> List.filter f l = List.filter g l.
Proof.
  induction 1 as [|x l Hx _ IH]; [done|]. simpl. by rewrite Hx, IH.
Qed.

(** X16. In both modes, when the configured loss probability is 0 or less,
    every legitimate message of a run is accepted: the roles, keys and
    actions the driver chooses authenticate and pass the default policy. *)
Theorem lossless_run_accepts_legitimate
    (m : string) (config : Config.t) (w : World) :
  m = "weak" \/ m = "secure" ->
  (default (5#100) (Config.loss_probability config) <= 0)%Q ->
  exists (s : Summary.t) (w' : World),
    run_and_summarise m config w = (Return s, w')
    /\ Summary.legitimate_accepted s = Summary.total_legitimate s
    /\ Summary.total_legitimate s
       = (config_devices config * config_legit_messages config)%nat.
Proof.
  intros Hmode Hloss.
  destruct (run_and_summarise_spec m config w Hmode)
    as (legit & rogue & w' & Hrun & Hlegit & _ & Hlen & _ & Hall & _).
  eexists _, w'. split; [exact Hrun|]. simpl. rewrite Hlegit.
  split; [|done].
  rewrite list_filter_all; [done|].
  eapply Forall_impl; [exact Hall|].
  intros r (i & Hi & (res & Hsent & _ & _ & -> & _)%record_sent_reads).
  destruct (sent_by_legit m config i res Hmode Hi Hsent) as [-> _].
  destruct (sent_by_network _ _ _ _ Hsent) as (Hdel & _).
  by apply Hdel.
Qed.

Lemma lossless_run_accepts_legitimate_witness :
  exists (s : Summary.t) (w' : World),
    run_and_summarise "secure" test_config (test_start low_draw) = (Return s, w')
    /\ Summary.legitimate_accepted s = 20%nat.
Proof.
  destruct (lossless_run_accepts_legitimate "secure" test_config
              (test_start low_draw) (or_intror eq_refl))
    as (s & w' & Hrun & Hacc & Htotal); [discriminate|].
  exists s, w'. split; [exact Hrun|]. rewrite Hacc. exact Htotal.
Defined.

(** X17. When the configured loss probability is 1 or more, no message of a
    run is delivered: nothing is accepted, and the three average latencies
    are 0, the value for an empty set of delivered messages, instead of a
    division by zero. *)
Theorem total_loss_run_summary
    (m : string) (config : Config.t) (w : World) :
  m = "weak" \/ m = "secure" ->
  (1 <= default (5#100) (Config.loss_probability config))%Q ->
  exists (s : Summary.t) (w' : World),
    run_and_summarise m config w = (Return s, w')
    /\ Summary.legitimate_accepted s = 0%nat
    /\ Summary.rogue_accepted s = 0%nat
    /\ Summary.rogue_unauthorised_accepted s = 0%nat
    /\ Summary.avg_latency_all_ms s = 0%Q
    /\ Summary.avg_latency_legitimate_ms s = 0%Q
    /\ Summary.avg_latency_rogue_ms s = 0%Q.
Proof.
  intros Hmode Hloss.
  destruct (run_and_summarise_spec m config w Hmode)
    as (legit & rogue & w' & Hrun & Hlegit & Hrogue & _ & _ & Hall1 & Hall2).
  eexists _, w'. split; [exact Hrun|]. simpl. rewrite Hlegit, Hrogue.
  assert (Forall (fun r => flag "delivered" r = false /\ flag "accepted" r = false)
            legit) as Hdrop1.
  { eapply Forall_impl; [exact Hall1|].
    intros r (i & _ & (res & Hsent & _ & Hdel & Hacc & _)%record_sent_reads).
    rewrite Hdel, Hacc.
    destruct (sent_by_network _ _ _ _ Hsent) as (_ & Hdrop & _).
    by destruct (Hdrop Hloss) as (-> & -> & _). }
  assert (Forall (fun r => flag "delivered" r = false /\ flag "accepted" r = false)
            rogue) as Hdrop2.
  { eapply Forall_impl; [exact Hall2|].
    intros r (res & Hsent & _ & Hdel & Hacc & _)%record_sent_reads.
    rewrite Hdel, Hacc.
    destruct (sent_by_network _ _ _ _ Hsent) as (_ & Hdrop & _).
    by destruct (Hdrop Hloss) as (-> & -> & _). }
  assert (forall (rs : list (gmap string Value)),
            Forall (fun r => flag "delivered" r = false
                             /\ flag "accepted" r = false) rs ->
            avg_of rs = 0%Q
            /\ List.filter (flag "accepted") rs = []
            /\ List.filter
                 (fun r => flag "accepted" r && negb (flag "authorised" r)) rs
               = []) as Hnone.
  { intros rs Hrs. unfold avg_of.
    rewrite !list_filter_none; [done| | |];
      (eapply Forall_impl; [exact Hrs|]);
      intros r [Hdel Hacc]; by rewrite ?Hdel, ?Hacc. }
  destruct (Hnone legit Hdrop1) as (Havg1 & Hacc1 & _).
  destruct (Hnone rogue Hdrop2) as (Havg2 & Hacc2 & Hun2).
  destruct (Hnone (legit ++ rogue)%list) as (Havg & _).
  { by apply Forall_app. }
  rewrite Havg, Havg1, Havg2, Hacc1, Hacc2, Hun2.
  by repeat split.
Qed.

Lemma total_loss_run_summary_witness :
  exists (s : Summary.t) (w' : World),
    run_and_summarise "weak"
      (Config.mk (Some 2%Z) (Some 3%Z) (Some 4%Z) None (Some 1%Q) None None None None)
      (test_start low_draw)
    = (Return s, w')
    /\ Summary.rogue_accepted s = 0%nat
    /\ Summary.avg_latency_all_ms s = 0%Q.
Proof.
  destruct (total_loss_run_summary "weak"
              (Config.mk (Some 2%Z) (Some 3%Z) (Some 4%Z) None (Some 1%Q)
                 None None None None)
              (test_start low_draw) (or_introl eq_refl))
    as (s & w' & Hrun & _ & Hrogue & _ & Havg & _); [discriminate|].
  exists s, w'. split; [exact Hrun|]. split; [exact Hrogue | exact Havg].
Defined.

(** X18. In weak mode, when the rogue device does not name a registered
    device, every rogue message that is accepted is accepted without
    authorisation: the two counts of the summary are equal. *)
Theorem weak_run_rogue_unauthorised (config : Config.t) (w : World) :
  (forall (i : nat),
     (i < config_devices config)%nat ->
     default "rogue_1" (Config.rogue_device_id config)
     <> "device_" ++ pretty (i + 1)%nat) ->
  exists (s : Summary.t) (w' : World),
    run_and_summarise "weak" config w = (Return s, w')
    /\ Summary.rogue_unauthorised_accepted s = Summary.rogue_accepted s.
Proof.
  intros Hfresh.
  destruct (run_and_summarise_spec "weak" config w (or_introl eq_refl))
    as (legit & rogue & w' & Hrun & _ & Hrogue & _ & _ & _ & Hall).
  eexists _, w'. split; [exact Hrun|]. simpl. rewrite Hrogue.
  f_equal. apply list_filter_ext.
  eapply Forall_impl; [exact Hall|].
  intros r (res & Hsent & _ & _ & _ & -> & _)%record_sent_reads.
  destruct (sent_by_weak (created_hub "weak" config) _ _ _ eq_refl Hsent)
    as [Hunknown _].
  rewrite Hunknown; [by rewrite andb_true_r|].
  destruct (registry_of_lookup "weak" (config_devices config)
              (default "rogue_1" (Config.rogue_device_id config))) as [_ Hnone].
  by apply Hnone.
Qed.

Lemma weak_run_rogue_unauthorised_witness :
  exists (s : Summary.t) (w' : World),
    run_and_summarise "weak" test_config (test_start low_draw) = (Return s, w')
    /\ Summary.rogue_unauthorised_accepted s = Summary.rogue_accepted s.
Proof.
  apply (weak_run_rogue_unauthorised test_config (test_start low_draw)).
  intros i Hi Hid. vm_compute in Hi.
  destruct i as [|[|i]]; [discriminate Hid | discriminate Hid | lia].
Defined.

(** X19. In weak mode a rogue device that names a registered device is
    taken for it: without any key, every delivered rogue message is accepted
    and authorised, so with a loss probability of 0 or less all rogue
    messages are accepted and none counts as unauthorised. *)
Theorem weak_run_rogue_impersonation (config : Config.t) (w : World) (i : nat) :
  (i < config_devices config)%nat ->
  default "rogue_1" (Config.rogue_device_id config)
  = "device_" ++ pretty (i + 1)%nat ->
  (default (5#100) (Config.loss_probability config) <= 0)%Q ->
  exists (s : Summary.t) (w' : World),
    run_and_summarise "weak" config w = (Return s, w')
    /\ Summary.rogue_accepted s = Summary.total_rogue s
    /\ Summary.rogue_unauthorised_accepted s = 0%nat.
Proof.
  intros Hi Hid Hloss.
  destruct (run_and_summarise_spec "weak" config w (or_introl eq_refl))
    as (legit & rogue & w' & Hrun & _ & Hrogue & _ & _ & _ & Hall).
  eexists _, w'. split; [exact Hrun|]. simpl. rewrite Hrogue.
  assert (Forall (fun r => flag "accepted" r = true /\ flag "authorised" r = true)
            rogue) as Hacc.
  { eapply Forall_impl; [exact Hall|].
    intros r (res & Hsent & _ & _ & Hacc & Haut & _)%record_sent_reads.
    rewrite Hacc, Haut.
    destruct (sent_by_weak (created_hub "weak" config) _ _ _ eq_refl Hsent)
      as [_ Hknown].
    destruct Hknown as [-> ->].
    - destruct (registry_of_lookup "weak" (config_devices config)
                  (default "rogue_1" (Config.rogue_device_id config)))
        as [Hsome _].
      eexists. by apply (Hsome i).
    - destruct (sent_by_network _ _ _ _ Hsent) as (Hdel & _).
      by rewrite Hdel. }
  split.
  - rewrite list_filter_all; [done|].
    eapply Forall_impl; [exact Hacc|]. by intros r [-> _].
  - rewrite list_filter_none; [done|].
    eapply Forall_impl; [exact Hacc|]. by intros r [-> ->].
Qed.

Lemma weak_run_rogue_impersonation_witness :
  exists (s : Summary.t) (w' : World),
    run_and_summarise "weak"
      (Config.mk (Some 2%Z) (Some 1%Z) (Some 3%Z) None (Some 0%Q) None
         (Some "device_2") (Some "viewer") None)
      (test_start high_draw)
    = (Return s, w')
    /\ Summary.rogue_accepted s = Summary.total_rogue s
    /\ Summary.rogue_unauthorised_accepted s = 0%nat.
Proof.
  apply (weak_run_rogue_impersonation
           (Config.mk (Some 2%Z) (Some 1%Z) (Some 3%Z) None (Some 0%Q) None
              (Some "device_2") (Some "viewer") None)
           (test_start high_draw) 1%nat).
  - vm_compute. lia.
  - reflexivity.
  - discriminate.
Defined.

(** ** Average latencies *)





(** ** Records the summary cannot read *)

Lemma filter_by_missing_key (key : string) (f : Value -> bool)
    (l : list (gmap string Value)) (w : World) :
  Exists (fun r => r !! key = None) l ->
  filter_by (fun r => do v <- getitem r key; ret (f v)) l w
  = (Raise (KeyError key), w).
Proof.
  induction l as [|r l IH]; intros Hex; [by apply Exists_nil in Hex|].
  simpl. destruct (r !! key) as [v|] eqn:Hr.
  - apply Exists_cons in Hex as [Hhere|Hlater]; [congruence|].
    unfold bind at 1. unfold bind at 1. unfold getitem. rewrite Hr.
    unfold ret at 1. unfold ret at 1.
    by rewrite (bind_raise _ _ _ _ _ (IH Hlater)).
  - unfold bind at 1. unfold bind at 1. unfold getitem. by rewrite Hr.
Qed.

(** X21. [summarise_results] accepts an empty list of records: every count
    is 0 and every average is 0, without a division by zero. It raises
    [KeyError] for "source" as soon as one record has no "source" key. *)
Theorem summarise_results_edge_cases
    (m : string) (config : Config.t) (records : list (gmap string Value))
    (w : World) :
  (records = [] ->
   Experiment.summarise_results (Results.mk m config records) w
   = (Return (Summary.mk m 0 0 0 0 0 0 0 0 0), w))
  /\ (Exists (fun r => r !! "source" = None) records ->
      Experiment.summarise_results (Results.mk m config records) w
      = (Raise (KeyError "source"), w)).
Proof.
  split.
  - by intros ->.
  - intros Hmissing. unfold Experiment.summarise_results.
    cbv zeta. simpl Results.records.
    by rewrite (bind_raise _ _ _ _ _
                  (filter_by_missing_key "source" _ records w Hmissing)).
Qed.

Lemma summarise_results_edge_cases_witness :
  Experiment.summarise_results
    (Results.mk "weak" test_config [ {[ "delivered" := VBool true ]} ])
    (test_start low_draw)
  = (Raise (KeyError "source"), test_start low_draw).
Proof.
  destruct (summarise_results_edge_cases "weak" test_config
              [ {[ "delivered" := VBool true ]} ] (test_start low_draw))
    as [_ Hraise].
  apply Hraise. apply Exists_cons_hd. reflexivity.
Defined.

(** ** Draws of a run *)

(** The draws one message costs. *)
Lemma send_action_cursor (dev : Device) (action : string) (w : World) :
  exists (res : MessageResult) (w' : World),
    Device.send_action dev action None w = (Return res, w')
    /\ hub w' = hub w /\ tape w' = tape w
    /\ cursor w'
       = ((if delivered res
              && fallback_draw (hub w)
                   (Message.mk (device_id dev) (role dev) action ∅ (api_key dev))
           then 3 else 2) + cursor w)%nat.
Proof.
  unfold Device.send_action. simpl.
  set (message := Message.mk _ _ _ _ _).
  destruct (Qlt_le_dec (next_draw w 1) (loss_probability (network dev)))
    as [Hdrop|Hkeep].
  - rewrite send_dropped by done. by eexists _, _.
  - destruct (process_message_cases message (consumed 2 w))
      as (a & b & r & Hdec & _).
    erewrite send_forwarded by done. eexists _, _. split; [reflexivity|]. simpl.
    by destruct (fallback_draw _ _).
Qed.

(** The draws of the messages one device sends in a row: two or three for
    each, and two when the controller makes no fallback draw for it. *)
Lemma traffic_loop_cursor (h : Controller) (source : string) (dev : Device)
    (action : string) (n : Z) (records : list (gmap string Value)) (w : World) :
  hub w = h ->
  exists (records' : list (gmap string Value)) (w' : World),
    for_each (range n)
      (fun (_ : nat) (records : list (gmap string Value)) =>
         do result <- Device.send_action dev action None;
         ret (records ++ [Experiment.record_of source dev action result])%list)
      records w
    = (Return records', w')
    /\ hub w' = h /\ tape w' = tape w
    /\ (2 * Z.to_nat n + cursor w <= cursor w')%nat
    /\ (cursor w' <= 3 * Z.to_nat n + cursor w)%nat
    /\ (fallback_draw h
          (Message.mk (device_id dev) (role dev) action ∅ (api_key dev)) = false ->
        cursor w' = (2 * Z.to_nat n + cursor w)%nat).
Proof.
  intros Hhub.
  destruct (for_each_invariant
              (fun k (s : list (gmap string Value)) v =>
                 hub v = h /\ tape v = tape w
                 /\ (2 * k + cursor w <= cursor v)%nat
                 /\ (cursor v <= 3 * k + cursor w)%nat
                 /\ (fallback_draw h
                       (Message.mk (device_id dev) (role dev) action ∅
                          (api_key dev)) = false ->
                     cursor v = (2 * k + cursor w)%nat))
              (range n)
              (fun (_ : nat) (records : list (gmap string Value)) =>
                 do result <- Device.send_action dev action None;
                 ret (records ++ [Experiment.record_of source dev action result])%list))
    with (s := records) (w := w)
    as (s' & w' & Hloop & Hinv).
  - intros i x s v _ (Hv & Htape & Hlo & Hhi & Hexact).
    destruct (send_action_cursor dev action v)
      as (res & v' & Hsend & Hv' & Htape' & Hcur).
    eexists _, v'. split; [unfold bind; by rewrite Hsend|].
    rewrite Hv in Hv', Hcur.
    split; [done|]. split; [congruence|].
    destruct (delivered res && fallback_draw h _) eqn:Hthird.
    + split; [lia|]. split; [lia|].
      intros Hno. rewrite Hno, andb_false_r in Hthird. done.
    + split; [lia|]. split; [lia|].
      intros Hno. rewrite (Hexact Hno) in Hcur. lia.
  - repeat split; try done; lia.
  - rewrite range_length in Hinv. by exists s', w'.
Qed.

(** The legitimate traffic costs two draws for each message when the
    controller makes no fallback draw for the devices. *)
Lemma legit_traffic_cursor (h : Controller) (mode : string)
    (net : NetworkSimulator) (n : nat) (m : Z) (w : World) :
  hub w = h ->
  (forall (i : nat),
     (i < n)%nat ->
     fallback_draw h
       (Message.mk (Experiment.device_name i) (legit_role i)
          (Experiment._choose_legitimate_action (legit_role i)) ∅
          (legit_key mode i)) = false) ->
  exists (legit : list (gmap string Value)) (w' : World),
    for_each (legit_device mode net <$> seq 0 n)
      (fun (device : Device) (records : list (gmap string Value)) =>
         for_each (range m)
           (fun (_ : nat) (records : list (gmap string Value)) =>
              let action := Experiment._choose_legitimate_action (role device) in
              do result <- Device.send_action device action None;
              ret (records
                   ++ [Experiment.record_of "legitimate" device action result])%list)
           records)
      [] w
    = (Return legit, w')
    /\ hub w' = h /\ tape w' = tape w
    /\ cursor w' = (2 * (n * Z.to_nat m) + cursor w)%nat.
Proof.
  intros Hhub Hno.
  set (body := fun (device : Device) (records : list (gmap string Value)) => _).
  destruct (for_each_invariant
              (fun k (s : list (gmap string Value)) v =>
                 hub v = h /\ tape v = tape w
                 /\ cursor v = (2 * (k * Z.to_nat m) + cursor w)%nat)
              (legit_device mode net <$> seq 0 n) body)
    with (s := @nil (gmap string Value)) (w := w)
    as (legit & w' & Hloop & Hinv).
  - intros k dev s v Hdev (Hv & Htape & Hcur).
    rewrite list_lookup_fmap in Hdev.
    destruct (seq 0 n !! k) as [i|] eqn:Hi; [|done].
    apply lookup_seq in Hi as [-> Hk]. simpl in Hdev.
    injection Hdev as <-.
    destruct (traffic_loop_cursor h "legitimate" (legit_device mode net k)
                (Experiment._choose_legitimate_action (legit_role k)) m s v Hv)
      as (s' & v' & Hblock & Hv' & Htape' & _ & _ & Hexact).
    exists s', v'. split; [exact Hblock|]. split; [done|]. split; [congruence|].
    rewrite Hexact by (by apply Hno). lia.
  - by repeat split.
  - rewrite length_fmap, length_seq in Hinv. by exists legit, w'.
Qed.

(** X22. A run consumes two draws of the generator for each message, plus
    one for each rogue message at most; in secure mode it consumes exactly
    two for each message, whatever the devices, the keys and the outcomes,
    so the draws of a seeded secure run line up message by message. The
    set-up consumes none. *)
Theorem run_experiment_draws (m : string) (config : Config.t) (w : World) :
  m = "weak" \/ m = "secure" ->
  let total :=
    (config_devices config * config_legit_messages config
     + config_rogue_messages config)%nat in
  exists (results : Results.t) (w' : World),
    Experiment.run_experiment m config w = (Return results, w')
    /\ tape w' = tape w
    /\ (2 * total + cursor w <= cursor w')%nat
    /\ (cursor w' <= 2 * total + config_rogue_messages config + cursor w)%nat
    /\ (m = "secure" -> cursor w' = (2 * total + cursor w)%nat).
Proof.
  intros Hmode total.
  set (h := created_hub m config).
  unfold Experiment.run_experiment.
  rewrite (bind_return _ _ _ _ _
             (create_devices_and_controller_valid m config w Hmode)).
  cbv beta iota.
  destruct (legit_traffic_cursor h m (config_network config) (config_devices config)
              (default 100%Z (Config.num_legit_messages_per_device config))
              (mkWorld h (tape w) (cursor w) (processed w)) eq_refl)
    as (legit & w1 & Hlegit & Hhub1 & Htape1 & Hcur1).
  { intros i Hi. unfold fallback_draw, h. simpl mode.
    destruct Hmode as [-> | ->]; [|done].
    simpl. rewrite bool_decide_eq_true_2; [done|].
    apply elem_of_dom.
    destruct (registry_of_lookup "weak" (config_devices config)
                (Experiment.device_name i)) as [Hreg _].
    rewrite (Hreg i Hi eq_refl). by eexists. }
  destruct (traffic_loop_cursor h "rogue" (config_rogue m config)
              Experiment._choose_malicious_action
              (default 100%Z (Config.num_rogue_messages config)) legit w1 Hhub1)
    as (records & w2 & Hrogue & Hhub2 & Htape2 & Hlo & Hhi & Hexact).
  exists (Results.mk m config records), w2.
  split.
  { eapply eq_trans; [exact (bind_return _ _ _ _ _ Hlegit)|].
    eapply eq_trans; [exact (bind_return _ _ _ _ _ Hrogue)|].
    reflexivity. }
  simpl in Htape1, Hcur1.
  unfold total, config_legit_messages, config_rogue_messages in *.
  split; [congruence|]. split; [lia|]. split; [lia|].
  intros ->. rewrite Hexact by done. lia.
Qed.

Lemma run_experiment_draws_witness :
  exists (results : Results.t) (w' : World),
    Experiment.run_experiment "secure" test_config (test_start low_draw)
    = (Return results, w')
    /\ cursor w' = 60%nat.
Proof.
  destruct (run_experiment_draws "secure" test_config (test_start low_draw)
              (or_intror eq_refl))
    as (results & w' & Hrun & _ & _ & _ & Hexact).
  exists results, w'. split; [exact Hrun|]. by apply Hexact.
Defined.
